(** * streamlit_detection_OP.py: the Streamlit detection front end

    A shallow embedding of [src/streamlit_detection_OP.py]: the model
    downloader [download_from_gdrive], the [Inference] class and the
    [__main__] entry point, followed by the properties of the run that the
    specification states.

    One execution of the script is one Streamlit script run: the widgets
    return the values the user has set ([UI]); the shell, OpenCV and the
    YOLO model are the environment ([World]).

    What can fail is modelled where the script meets it: [os.makedirs]
    on a regular file, [os.remove] on a missing path, [YOLO] on any
    file, [cv2.imdecode] on an upload that is no image or is empty, the
    model and [st.image] given [None], the attribute [image_data] read
    before it is set, and [st.stop()]. The calls of the model on a
    frame, the plot, the capture and its reads, the widgets, the writes
    to the console and the write of the upload are calls that return. *)

From Stdlib Require Import ZArith QArith List Lia.
From stdpp Require Import base option list strings gmap.
Import ListNotations.

Local Open Scope string_scope.
Local Open Scope list_scope.

(** ** Python values the script handles *)

Abbreviation bytes := (list Byte.byte).

(** [self.vid_file_name] holds a path (a [str]) or a device index (an [int]). *)
Inductive PyVal :=
| VNone
| VStr (s : string)
| VInt (z : Z).

(** The three options of the "Select Source" select box. *)
Inductive SourceKind := Webcam | Video | Image.

(** The two options of the "Enable Tracking" radio. *)
Inductive YesNo := Yes | No.

(** Exceptions the script can raise. [StopException] is how [st.stop()]
    ends the script run; [LibraryError] stands for an exception whose
    class belongs to a library ([cv2.error], an error of Streamlit), by
    the call that raised it. *)
Inductive Exn :=
| AttributeError (attr : string)
| KeyError (key : string)
| FileNotFoundError (path : string)
| FileExistsError (path : string)
| TypeError (what : string)
| LibraryError (call : string)
| StopException.

(** ** The file system *)

Record FS := mkFS {
  files : gmap string bytes;
  dirs : gset string
}.

Definition os_path_exists (p : string) (fs : FS) : bool :=
  bool_decide (is_Some (files fs !! p)).

Definition os_path_getsize (p : string) (fs : FS) : option Z :=
  (fun b => Z.of_nat (length b)) <$> files fs !! p.

Definition fs_remove (p : string) (fs : FS) : FS :=
  mkFS (delete p (files fs)) (dirs fs).

Definition fs_makedirs (d : string) (fs : FS) : FS :=
  mkFS (files fs) ({[d]} ∪ dirs fs).

Definition fs_write (p : string) (b : bytes) (fs : FS) : FS :=
  mkFS (<[p := b]> (files fs)) (dirs fs).

(** ** The console *)

(** The five messages [download_from_gdrive] prints. *)
Inductive ConsoleMsg :=
| MsgDownloading (model_name : string)
| MsgDownloaded (model_name : string) (size : Z)
| MsgFailed (model_name : string)
| MsgDownloadError (e : Exn)
| MsgExists (model_name : string).

(** ** The capture, the events and the monad of the script *)

(** What [cv2.imdecode] makes of the bytes of an upload: an image;
    [None], when the bytes are no image; or an exception (an empty
    buffer). *)
Inductive Decoded (Frame : Type) :=
| DImage (image : Frame)
| DNone
| DRaises (e : Exn).
Arguments DImage {Frame} image.
Arguments DNone {Frame}.
Arguments DRaises {Frame} e.

(** What [cap.read()] finds at the next position of the stream. OpenCV
    reports both the end of a file and a failed grab as [success = False]. *)
Inductive ReadOutcome (Frame : Type) :=
| RFrame (f : Frame)
| REndOfStream
| RReadError.
Arguments RFrame {Frame} f.
Arguments REndOfStream {Frame}.
Arguments RReadError {Frame}.

(** A [cv2.VideoCapture] object: whether it is open, and what the reads
    from the current position on will find. *)
Record Capture (Frame : Type) := mkCapture {
  cap_opened : bool;
  cap_frames : nat -> ReadOutcome Frame
}.
Arguments mkCapture {Frame} cap_opened cap_frames.
Arguments cap_opened {Frame} c.
Arguments cap_frames {Frame} c _.

Inductive Event (Frame : Type) :=
| EPrint (m : ConsoleMsg)
| ELog (model : option string)
| ESystem (command : string)
| EWidget (label : string)
| EMarkdown
| ELoadModel (path : string)
| ESuccess (msg : string)
| EError (msg : string)
| EWarning (msg : string)
| ECapOpen (name : PyVal)
| ECapRead (success : bool)
| EPredict (frame : Frame) (conf iou : Q) (classes : list Z)
| EPredictNone (conf iou : Q) (classes : list Z)
| ETrack (frame : Frame) (conf iou : Q) (classes : list Z) (persist : bool)
| EPlot
| EOrgImage (frame : Frame) (caption : option string)
| EAnnImage (frame : Frame) (caption : option string)
| ECapRelease
| EStStop
| EDestroyAllWindows.
Arguments EPrint {Frame} m.
Arguments ELog {Frame} model.
Arguments ESystem {Frame} command.
Arguments EWidget {Frame} label.
Arguments EMarkdown {Frame}.
Arguments ELoadModel {Frame} path.
Arguments ESuccess {Frame} msg.
Arguments EError {Frame} msg.
Arguments EWarning {Frame} msg.
Arguments ECapOpen {Frame} name.
Arguments ECapRead {Frame} success.
Arguments EPredict {Frame} frame conf iou classes.
Arguments EPredictNone {Frame} conf iou classes.
Arguments ETrack {Frame} frame conf iou classes persist.
Arguments EPlot {Frame}.
Arguments EOrgImage {Frame} frame caption.
Arguments EAnnImage {Frame} frame caption.
Arguments ECapRelease {Frame}.
Arguments EStStop {Frame}.
Arguments EDestroyAllWindows {Frame}.

(** ** The monad of the script: file system, trace, exceptions, fuel *)

Inductive Outcome (Frame A : Type) :=
| Done (a : A) (fs : FS) (t : list (Event Frame))
| Raised (e : Exn) (fs : FS) (t : list (Event Frame))
| OutOfFuel.
Arguments Done {Frame A} a fs t.
Arguments Raised {Frame A} e fs t.
Arguments OutOfFuel {Frame A}.

Definition M (Frame A : Type) := FS -> Outcome Frame A.

Definition ret {Frame A} (a : A) : M Frame A := fun fs => Done a fs [].

Definition bind {Frame A B} (m : M Frame A) (f : A -> M Frame B)
  : M Frame B := fun fs =>
  match m fs with
  | Done a fs1 t1 =>
      match f a fs1 with
      | Done b fs2 t2 => Done b fs2 (t1 ++ t2)
      | Raised e fs2 t2 => Raised e fs2 (t1 ++ t2)
      | OutOfFuel => OutOfFuel
      end
  | Raised e fs1 t1 => Raised e fs1 t1
  | OutOfFuel => OutOfFuel
  end.

Definition raise {Frame A} (e : Exn) : M Frame A := fun fs => Raised e fs [].

Definition out_of_fuel {Frame A} : M Frame A := fun _ => OutOfFuel.

Definition emit {Frame} (e : Event Frame) : M Frame unit :=
  fun fs => Done tt fs [e].

Definition get_fs {Frame} : M Frame FS := fun fs => Done fs fs [].

Definition modify_fs {Frame} (f : FS -> FS) : M Frame unit :=
  fun fs => Done tt (f fs) [].

(** [try: body except Exception as e: handler e] *)
Definition try_except {Frame A} (body : M Frame A) (handler : Exn -> M Frame A)
  : M Frame A := fun fs =>
  match body fs with
  | Done a fs1 t1 => Done a fs1 t1
  | Raised e fs1 t1 =>
      match handler e fs1 with
      | Done a fs2 t2 => Done a fs2 (t1 ++ t2)
      | Raised e' fs2 t2 => Raised e' fs2 (t1 ++ t2)
      | OutOfFuel => OutOfFuel
      end
  | OutOfFuel => OutOfFuel
  end.

Declare Scope script_scope.
Delimit Scope script_scope with script.
Notation "x <- c1 ;; c2" := (bind c1 (fun x => c2))
  (at level 100, c1 at next level, c2 at level 200, right associativity)
  : script_scope.
Notation "c1 ;; c2" := (bind c1 (fun _ => c2))
  (at level 100, c2 at level 200, right associativity) : script_scope.
Local Open Scope script_scope.

(** The trace of a run that ended, normally or by an exception. *)
Definition trace_of {Frame A} (o : Outcome Frame A)
  : option (list (Event Frame)) :=
  match o with
  | Done _ _ t => Some t
  | Raised _ _ t => Some t
  | OutOfFuel => None
  end.

(** ** The environment *)

Class World (Frame ModelSt Results : Type) := {
  (** [os.system(command)]: the exit status of the shell command, and
      whatever it does to the disk. *)
  os_system : string -> FS -> Z * FS;
  (** [YOLO(path)]: the loaded model, or the exception the library raises. *)
  YOLO : string -> FS -> Exn + ModelSt;
  (** [model(frame, conf=, iou=, classes=)] *)
  predict : ModelSt -> Frame -> Q -> Q -> list Z -> Results * ModelSt;
  (** [model(None, conf=, iou=, classes=)]: the call with no image, which
      the library answers or refuses *)
  predict_none : ModelSt -> Q -> Q -> list Z -> Exn + (Results * ModelSt);
  (** [model.track(frame, conf=, iou=, classes=, persist=)] *)
  track : ModelSt -> Frame -> Q -> Q -> list Z -> bool -> Results * ModelSt;
  (** [results[0].plot()] *)
  plot : Results -> Frame;
  (** [cv2.imdecode(np.asarray(bytearray(data)), cv2.IMREAD_COLOR)] *)
  imdecode : bytes -> Decoded Frame;
  (** what [st.image(None, ...)] raises *)
  st_image_none : Exn;
  (** [cv2.VideoCapture(name)] *)
  VideoCapture : PyVal -> FS -> Capture Frame
}.

(** ** class [Inference] *)

Record Inference (ModelSt : Type) := mkInference {
  source : option SourceKind;
  enable_trk : option YesNo;       (* [None] is the initial [False] *)
  conf : Q;
  iou : Q;
  vid_file_name : PyVal;
  selected_ind : list Z;
  model : option ModelSt;
  temp_dict_model : option string; (* [temp_dict["model"]] *)
  model_path : option string;
  image_data : option bytes        (* [None]: the attribute is not set *)
}.
Arguments mkInference {ModelSt}.
Arguments source {ModelSt} i.
Arguments enable_trk {ModelSt} i.
Arguments conf {ModelSt} i.
Arguments iou {ModelSt} i.
Arguments vid_file_name {ModelSt} i.
Arguments selected_ind {ModelSt} i.
Arguments model {ModelSt} i.
Arguments temp_dict_model {ModelSt} i.
Arguments model_path {ModelSt} i.
Arguments image_data {ModelSt} i.

Definition set_source {ModelSt} v (s : Inference ModelSt) :=
  mkInference v (enable_trk s) (conf s) (iou s) (vid_file_name s)
    (selected_ind s) (model s) (temp_dict_model s) (model_path s)
    (image_data s).
Definition set_enable_trk {ModelSt} v (s : Inference ModelSt) :=
  mkInference (source s) v (conf s) (iou s) (vid_file_name s)
    (selected_ind s) (model s) (temp_dict_model s) (model_path s)
    (image_data s).
Definition set_conf {ModelSt} v (s : Inference ModelSt) :=
  mkInference (source s) (enable_trk s) v (iou s) (vid_file_name s)
    (selected_ind s) (model s) (temp_dict_model s) (model_path s)
    (image_data s).
Definition set_iou {ModelSt} v (s : Inference ModelSt) :=
  mkInference (source s) (enable_trk s) (conf s) v (vid_file_name s)
    (selected_ind s) (model s) (temp_dict_model s) (model_path s)
    (image_data s).
Definition set_vid_file_name {ModelSt} v (s : Inference ModelSt) :=
  mkInference (source s) (enable_trk s) (conf s) (iou s) v
    (selected_ind s) (model s) (temp_dict_model s) (model_path s)
    (image_data s).
Definition set_model {ModelSt} (v : option ModelSt) (s : Inference ModelSt) :=
  mkInference (source s) (enable_trk s) (conf s) (iou s) (vid_file_name s)
    (selected_ind s) v (temp_dict_model s) (model_path s) (image_data s).
Definition set_image_data {ModelSt} v (s : Inference ModelSt) :=
  mkInference (source s) (enable_trk s) (conf s) (iou s) (vid_file_name s)
    (selected_ind s) (model s) (temp_dict_model s) (model_path s) v.

(** * The script *)

Section Program.

Context {Frame ModelSt Results : Type} `{W : World Frame ModelSt Results}.

Local Abbreviation Event := (Event Frame).
Local Abbreviation Outcome := (Outcome Frame).
Local Abbreviation M := (M Frame).
Local Abbreviation ReadOutcome := (ReadOutcome Frame).
Local Abbreviation Capture := (Capture Frame).
Local Abbreviation Inference := (Inference ModelSt).

(** ** [GDRIVE_MODELS] *)

Definition GDRIVE_MODELS : list (string * string) :=
  [ ("YOLO11m_baseline", "1RYJiKwAV2Ueg05_W9U20Y_h0D5SYDFpC");
    ("YOLO11m_CA", "1-vh_zLz9OMVCO_6CueKx_MSVVJrCrNhF");
    ("YOLO11m_ECA", "1ZdrB2IcubfM6uJsio4dEOBEcKzlae6-S");
    ("YOLO11m_CBAM", "1jKIStEJRGLGhvEPtAx3tRf8O4VLLwwdB") ].

Fixpoint dict_lookup (d : list (string * string)) (k : string)
  : option string :=
  match d with
  | [] => None
  | (k', v) :: d' => if String.eqb k' k then Some v else dict_lookup d' k
  end.

(** [d[k]], raising [KeyError] on a missing key. *)
Definition dict_get (d : list (string * string)) (k : string) : M string :=
  match dict_lookup d k with
  | Some v => ret v
  | None => raise (KeyError k)
  end.

(** ** [download_from_gdrive] *)

Definition model_file (model_name : string) : string :=
  "models/" +:+ model_name +:+ ".pt".

Definition gdrive_url (file_id : string) : string :=
  "https://drive.google.com/uc?export=download&id=" +:+ file_id.

Definition wget_command (model_path url : string) : string :=
  "wget --no-check-certificate -O " +:+ model_path +:+ " '" +:+ url +:+ "'".

(** [os.remove(path)] *)
Definition os_remove (p : string) : M unit :=
  fs <- get_fs ;;
  if os_path_exists p fs then modify_fs (fs_remove p)
  else raise (FileNotFoundError p).

(** [os.path.exists(p) and os.path.getsize(p) > 10_000], with the size for
    the message of the first branch. *)
Definition large_enough (p : string) (fs : FS) : option Z :=
  match os_path_getsize p fs with
  | Some n => if (n >? 10000)%Z then Some n else None
  | None => None
  end.

(** [os.makedirs(d, exist_ok=True)]: the directory is made, or is there
    already; a regular file of that name makes the call fail. *)
Definition os_makedirs (d : string) : M unit :=
  fs <- get_fs ;;
  if os_path_exists d fs then raise (FileExistsError d)
  else modify_fs (fs_makedirs d).

(** [os.system(command)]: the command acts on the disk and its exit
    status is returned. *)
Definition run_command (command : string) : M Z :=
  emit (ESystem command) ;;
  fs <- get_fs ;;
  let '(status, fs') := os_system command fs in
  modify_fs (fun _ => fs') ;;
  ret status.

Definition download_from_gdrive (file_id model_name : string) : M unit :=
  let model_path := model_file model_name in
  fs <- get_fs ;;
  if negb (os_path_exists model_path fs) then
    os_makedirs "models" ;;
    emit (EPrint (MsgDownloading model_name)) ;;
    let url := gdrive_url file_id in
    let command := wget_command model_path url in
    try_except
      ((* the exit status is not kept *)
       run_command command ;;
       fs' <- get_fs ;;
       match large_enough model_path fs' with
       | Some n => emit (EPrint (MsgDownloaded model_name n))
       | None =>
           emit (EPrint (MsgFailed model_name)) ;;
           os_remove model_path
       end)
      (fun e => emit (EPrint (MsgDownloadError e)))
  else
    emit (EPrint (MsgExists model_name)).

(** ** The widgets of one script run *)

Record UI := mkUI {
  ui_source : SourceKind;          (* "Select Source" *)
  ui_tracking : YesNo;             (* "Enable Tracking" *)
  ui_conf : option Q;              (* "Confidence Threshold", if moved *)
  ui_iou : option Q;               (* "IoU Threshold", if moved *)
  ui_video_file : option bytes;    (* "Upload Video File" *)
  ui_image_file : option bytes;    (* "Upload Image File" *)
  ui_model : nat;                  (* "Model": index of the chosen option *)
  ui_start : bool;                 (* "Start" pressed in this run *)
  ui_stop : bool                   (* value of the "Stop" button *)
}.

(** [st.selectbox(label, options)]: the chosen option, the first one by
    default, [None] when there is no option. *)
Definition select_option (options : list string) (choice : nat)
  : option string :=
  match nth_error options choice with
  | Some o => Some o
  | None => head options
  end.

Definition selectbox (label : string) (options : list string) (choice : nat)
  : M (option string) :=
  emit (EWidget label) ;;
  ret (select_option options choice).

(** [st.slider(label, 0.0, 1.0, value, 0.01)] *)
Definition slider (label : string) (value : Q) (moved : option Q) : M Q :=
  emit (EWidget label) ;;
  ret (default value moved).

Definition button (label : string) (pressed : bool) : M bool :=
  emit (EWidget label) ;;
  ret pressed.

(** ** The methods of [Inference] *)

(** [Inference.__init__(self, **kwargs)] with [kwargs = {"model": model}].
    The thresholds start at 0.25 and 0.45; [image_data] is not set. The
    two panes [org_frame] and [ann_frame], made by [sidebar] before any
    use, are not fields of the record. *)
Definition init (model_arg : option string) : M Inference :=
  let temp_dict := model_arg in
  let model_path :=
    match temp_dict with
    | Some p => Some p
    | None => None
    end in
  emit (ELog temp_dict) ;;
  ret (mkInference None None (25 # 100) (45 # 100) VNone [] None
         temp_dict model_path None).

Definition web_ui (self : Inference) : M Inference :=
  emit (EWidget "page_config") ;;
  emit EMarkdown ;;
  emit EMarkdown ;;
  emit EMarkdown ;;
  ret self.

Definition sidebar (self : Inference) (ui : UI) : M Inference :=
  emit (EWidget "logo") ;;
  emit (EWidget "User Configuration") ;;
  emit (EWidget "Select Source") ;;
  let self := set_source (Some (ui_source ui)) self in
  emit (EWidget "Enable Tracking") ;;
  let self := set_enable_trk (Some (ui_tracking ui)) self in
  c <- slider "Confidence Threshold" (conf self) (ui_conf ui) ;;
  let self := set_conf c self in
  i <- slider "IoU Threshold" (iou self) (ui_iou ui) ;;
  let self := set_iou i self in
  emit (EWidget "columns") ;;
  ret self.

Definition source_upload (self : Inference) (ui : UI) : M Inference :=
  let self := set_vid_file_name (VStr "") self in
  match source self with
  | Some Video =>
      emit (EWidget "Upload Video File") ;;
      match ui_video_file ui with
      | Some g =>
          modify_fs (fs_write "uploaded_video.mp4" g) ;;
          ret (set_vid_file_name (VStr "uploaded_video.mp4") self)
      | None => ret self
      end
  | Some Webcam => ret (set_vid_file_name (VInt 0) self)
  | Some Image =>
      emit (EWidget "Upload Image File") ;;
      match ui_image_file ui with
      | Some img_file => ret (set_image_data (Some img_file) self)
      | None => ret self
      end
  | None => ret self
  end.

Definition available_models : list string := map fst GDRIVE_MODELS.

(** [YOLO(path)] inside the spinner (the class names read after it are
    not used). *)
Definition load_model (path : string) : M ModelSt :=
  emit (ELoadModel path) ;;
  fs <- get_fs ;;
  match YOLO path fs with
  | inl e => raise e
  | inr m => ret m
  end.

Definition configure (self : Inference) (ui : UI) : M Inference :=
  sel <- selectbox "Model" available_models (ui_model ui) ;;
  match sel with
  | None => raise (KeyError "None")
  | Some selected_model =>
      file_id <- dict_get GDRIVE_MODELS selected_model ;;
      download_from_gdrive file_id selected_model ;;
      m <- load_model (model_file selected_model) ;;
      emit (ESuccess "Model loaded successfully!") ;;
      ret (set_model (Some m) self)
  end.

(** ** [Inference.inference] *)

(** [self.enable_trk == "Yes"] *)
Definition tracking_on (self : Inference) : bool :=
  match enable_trk self with
  | Some Yes => true
  | _ => false
  end.

(** [self.model(frame, conf=self.conf, iou=self.iou,
     classes=self.selected_ind)] *)
Definition call_predict (self : Inference) (frame : Frame)
  : M (Results * Inference) :=
  match model self with
  | None => raise (TypeError "NoneType")
  | Some m =>
      emit (EPredict frame (conf self) (iou self) (selected_ind self)) ;;
      let '(results, m') :=
        predict m frame (conf self) (iou self) (selected_ind self) in
      ret (results, set_model (Some m') self)
  end.

(** [self.model.track(frame, conf=self.conf, iou=self.iou,
     classes=self.selected_ind, persist=True)] *)
Definition call_track (self : Inference) (frame : Frame)
  : M (Results * Inference) :=
  match model self with
  | None => raise (AttributeError "track")
  | Some m =>
      emit (ETrack frame (conf self) (iou self) (selected_ind self) true) ;;
      let '(results, m') :=
        track m frame (conf self) (iou self) (selected_ind self) true in
      ret (results, set_model (Some m') self)
  end.

(** The same call when [cv2.imdecode] has returned [None]:
    [self.model(None, conf=self.conf, iou=self.iou,
     classes=self.selected_ind)] *)
Definition call_predict_none (self : Inference) : M (Results * Inference) :=
  match model self with
  | None => raise (TypeError "NoneType")
  | Some m =>
      emit (EPredictNone (conf self) (iou self) (selected_ind self)) ;;
      match predict_none m (conf self) (iou self) (selected_ind self) with
      | inl e => raise e
      | inr (results, m') => ret (results, set_model (Some m') self)
      end
  end.

Definition plot_first (results : Results) : M Frame :=
  emit EPlot ;;
  ret (plot results).

(** The branch [if self.source == "image"]. The bytes of the upload are
    decoded; when they are no image, [image] is [None], the model is
    called all the same, and [self.org_frame.image(image, ...)] raises
    before anything is shown. *)
Definition run_image (self : Inference) : M Inference :=
  match image_data self with
  | None => raise (AttributeError "image_data")
  | Some file_bytes =>
      (* an uploaded file object is truthy *)
      match imdecode file_bytes with
      | DRaises e => raise e
      | DImage image =>
          res <- call_predict self image ;;
          let '(results, self) := res in
          annotated_image <- plot_first results ;;
          emit (EOrgImage image (Some "Original Image")) ;;
          emit (EAnnImage annotated_image (Some "Detected Image")) ;;
          ret self
      | DNone =>
          res <- call_predict_none self ;;
          let '(results, self) := res in
          annotated_image <- plot_first results ;;
          raise st_image_none
      end
  end.

(** [cap.read()]: the pair [(success, frame)] and the capture moved on. *)
Definition cap_read (cap : Capture) : M (option Frame * Capture) :=
  let r :=
    match cap_frames cap 0 with
    | RFrame f => Some f
    | REndOfStream | RReadError => None
    end in
  let success := match r with Some _ => true | None => false end in
  emit (ECapRead success) ;;
  ret (r, mkCapture (cap_opened cap) (fun i => cap_frames cap (S i))).

(** [cap.release()] *)
Definition cap_release (cap : Capture) : M Capture :=
  emit ECapRelease ;;
  ret (mkCapture false (cap_frames cap)).

(** [st.stop()]: the script run ends here. *)
Definition st_stop {A} : M A :=
  emit EStStop ;;
  raise StopException.

(** How a pass through the body of the loop ends: at [break], or at the
    end of the body, back to the loop test. *)
Inductive Flow := Break | Continue.

(** One pass through the body of [while cap.isOpened()]. *)
Definition loop_body (self : Inference) (stop_button : bool) (cap : Capture)
  : M (Flow * Inference * Capture) :=
  rd <- cap_read cap ;;
  let '(r, cap) := rd in
  match r with
  | None =>
      emit (EWarning "Failed to read frame.") ;;
      ret (Break, self, cap)
  | Some frame =>
      res <-
        (if tracking_on self then call_track self frame
         else call_predict self frame) ;;
      let '(results, self) := res in
      annotated_frame <- plot_first results ;;
      (if stop_button then
         cap' <- cap_release cap ;;
         st_stop
       else ret tt) ;;
      emit (EOrgImage frame None) ;;
      emit (EAnnImage annotated_frame None) ;;
      ret (Continue, self, cap)
  end.

(** [while cap.isOpened(): ...]; the fuel bounds the number of passes. *)
Fixpoint stream_loop (fuel : nat) (self : Inference) (stop_button : bool)
    (cap : Capture) : M (Inference * Capture) :=
  if cap_opened cap then
    match fuel with
    | O => out_of_fuel
    | S fuel' =>
        next <- loop_body self stop_button cap ;;
        match next with
        | (Break, self', cap') => ret (self', cap')
        | (Continue, self', cap') => stream_loop fuel' self' stop_button cap'
        end
    end
  else ret (self, cap).

(** The branch [elif self.source in ["video", "webcam"]]. *)
Definition run_stream (fuel : nat) (self : Inference) (ui : UI) : M Inference :=
  stop_button <- button "Stop" (ui_stop ui) ;;
  emit (ECapOpen (vid_file_name self)) ;;
  fs <- get_fs ;;
  let cap := VideoCapture (vid_file_name self) fs in
  (if negb (cap_opened cap) then emit (EError "Could not open video/webcam.")
   else ret tt) ;;
  fin <- stream_loop fuel self stop_button cap ;;
  let '(self, cap) := fin in
  cap_release cap ;;
  ret self.

(** The body of [if self.st.sidebar.button("Start")]. *)
Definition start_pressed (fuel : nat) (self : Inference) (ui : UI)
  : M Inference :=
  self <-
    match source self with
    | Some Image => run_image self
    | Some Video | Some Webcam => run_stream fuel self ui
    | None => ret self
    end ;;
  emit EDestroyAllWindows ;;
  ret self.

Definition inference (fuel : nat) (self : Inference) (ui : UI) : M Inference :=
  self <- web_ui self ;;
  self <- sidebar self ui ;;
  self <- source_upload self ui ;;
  self <- configure self ui ;;
  start <- button "Start" (ui_start ui) ;;
  if start then start_pressed fuel self ui else ret self.

(** ** [__main__] *)

Definition main (fuel : nat) (argv : list string) (ui : UI) : M Inference :=
  let args := length argv in
  let model_arg := if (1 <? args)%nat then nth_error argv 1 else None in
  self <- init model_arg ;;
  inference fuel self ui.

End Program.

(** * The vocabulary of the properties *)

Section Vocabulary.

Context {Frame ModelSt Results : Type} `{W : World Frame ModelSt Results}.

Local Abbreviation Event := (Event Frame).
Local Abbreviation Outcome := (Outcome Frame).
Local Abbreviation M := (M Frame).
Local Abbreviation ReadOutcome := (ReadOutcome Frame).
Local Abbreviation Capture := (Capture Frame).
Local Abbreviation Inference := (Inference ModelSt).

(** ** Reading a trace *)

(** The (original, annotated) pairs shown on the page: a picture put in
    the left pane directly followed by one put in the right pane. *)
Fixpoint emissions (t : list Event) : list (Frame * Frame) :=
  match t with
  | [] => []
  | EOrgImage f _ :: t' =>
      match t' with
      | EAnnImage a _ :: _ => (f, a) :: emissions t'
      | _ => emissions t'
      end
  | _ :: t' => emissions t'
  end.

(** How many events of a trace satisfy [p]. *)
Fixpoint count (p : Event -> bool) (t : list Event) : nat :=
  match t with
  | [] => 0
  | e :: t' => (if p e then 1 else 0) + count p t'
  end.

(** [cap.release()], [cv2.VideoCapture], [os.system], a call of the
    model, a read that gave a frame. *)
Definition is_release (e : Event) : bool :=
  match e with ECapRelease => true | _ => false end.

Definition is_cap_open (e : Event) : bool :=
  match e with ECapOpen _ => true | _ => false end.

Definition is_fetch (e : Event) : bool :=
  match e with ESystem _ => true | _ => false end.

Definition is_model_call (e : Event) : bool :=
  match e with
  | EPredict _ _ _ _ | EPredictNone _ _ _ | ETrack _ _ _ _ _ => true
  | _ => false
  end.

Definition is_good_read (e : Event) : bool :=
  match e with ECapRead true => true | _ => false end.

(** ** The steps of the script in closed form *)

(** The disk the size test sees: [models/] made, the command run. *)
Definition fetched (file_id model_name : string) (fs : FS) : FS :=
  snd (os_system (wget_command (model_file model_name) (gdrive_url file_id))
         (fs_makedirs "models" fs)).


(** [self] after [sidebar]. *)
Definition after_sidebar (self : Inference) (ui : UI) : Inference :=
  let self := set_source (Some (ui_source ui)) self in
  let self := set_enable_trk (Some (ui_tracking ui)) self in
  let self := set_conf (default (conf self) (ui_conf ui)) self in
  set_iou (default (iou self) (ui_iou ui)) self.

(** [self] after [sidebar] and [source_upload]. *)
Definition prepared (self : Inference) (ui : UI) : Inference :=
  let self := set_vid_file_name (VStr "") (after_sidebar self ui) in
  match ui_source ui with
  | Video =>
      match ui_video_file ui with
      | Some _ => set_vid_file_name (VStr "uploaded_video.mp4") self
      | None => self
      end
  | Webcam => set_vid_file_name (VInt 0) self
  | Image =>
      match ui_image_file ui with
      | Some img_file => set_image_data (Some img_file) self
      | None => self
      end
  end.

(** The disk after [source_upload]. *)
Definition uploaded (ui : UI) (fs : FS) : FS :=
  match ui_source ui, ui_video_file ui with
  | Video, Some g => fs_write "uploaded_video.mp4" g fs
  | _, _ => fs
  end.

(** The widgets drawn by [web_ui], [sidebar] and [source_upload]. *)
Definition page_trace (ui : UI) : list Event :=
  [EWidget "page_config"; EMarkdown; EMarkdown; EMarkdown;
   EWidget "logo"; EWidget "User Configuration"; EWidget "Select Source";
   EWidget "Enable Tracking"; EWidget "Confidence Threshold";
   EWidget "IoU Threshold"; EWidget "columns"] ++
  match ui_source ui with
  | Video => [EWidget "Upload Video File"]
  | Webcam => []
  | Image => [EWidget "Upload Image File"]
  end.

(** An outcome with [t] put in front of its trace. *)
Definition after_trace {A} (t : list Event) (o : Outcome A) : Outcome A :=
  match o with
  | Done a fs t' => Done a fs (t ++ t')
  | Raised e fs t' => Raised e fs (t ++ t')
  | OutOfFuel => OutOfFuel
  end.

(** ** Streams, passes of the loop *)

Definition is_frame (r : ReadOutcome) : bool :=
  match r with RFrame _ => true | _ => false end.

(** The reads of a source that has [frames] to give and then goes on as
    [rest]: a video file of these frames when [rest 0] is no frame. *)
Definition stream_of (frames : list Frame) (rest : nat -> ReadOutcome)
  : nat -> ReadOutcome :=
  fun i =>
    match nth_error frames i with
    | Some f => RFrame f
    | None => rest (i - length frames)%nat
    end.

(** The capture after one read. *)
Definition advance (cap : Capture) : Capture :=
  mkCapture (cap_opened cap) (fun i => cap_frames cap (S i)).

(** The call the loop makes for [frame], by the tracking flag. *)
Definition call_event (trk : bool) (self : Inference) (frame : Frame) : Event :=
  if trk then ETrack frame (conf self) (iou self) (selected_ind self) true
  else EPredict frame (conf self) (iou self) (selected_ind self).

(** What the model answers to that call, and the model after it. *)
Definition call_result (trk : bool) (self : Inference) (m : ModelSt)
    (frame : Frame) : Results * ModelSt :=
  if trk then track m frame (conf self) (iou self) (selected_ind self) true
  else predict m frame (conf self) (iou self) (selected_ind self).

(** The pairs the loop shows for [frames], and the model after them. *)
Fixpoint annotate (trk : bool) (self : Inference) (m : ModelSt)
    (frames : list Frame) : list (Frame * Frame) * ModelSt :=
  match frames with
  | [] => ([], m)
  | f :: frames' =>
      let '(r, m1) := call_result trk self m f in
      let '(ps, m2) := annotate trk self m1 frames' in
      ((f, plot r) :: ps, m2)
  end.

(** The events of one pass that reads a frame and shows it. *)
Definition pass_trace (trk : bool) (self : Inference) (p : Frame * Frame)
  : list Event :=
  [ECapRead true; call_event trk self (fst p); EPlot;
   EOrgImage (fst p) None; EAnnImage (snd p) None].

(** The events of the pass whose read gives no frame. *)
Definition failed_read_trace : list Event :=
  [ECapRead false; EWarning "Failed to read frame."].

(** A model call in a trace is the one the tracking flag asks for, with
    the thresholds and the classes of [self]; the call with no image is
    a plain call of the source "image". *)
Definition call_ok (trk : bool) (self : Inference) (e : Event) : Prop :=
  match e with
  | EPredict f _ _ _ | ETrack f _ _ _ _ => e = call_event trk self f
  | EPredictNone c i classes =>
      trk = false /\ source self = Some Image /\
      c = conf self /\ i = iou self /\ classes = selected_ind self
  | _ => True
  end.

(** What holds of the loop however it ends. *)
Definition loop_ends_well (self : Inference) (fs : FS)
    (o : Outcome (Inference * Capture)) : Prop :=
  match o with
  | Done _ fs' t =>
      fs' = fs /\ count is_release t = 0%nat /\
      Forall (call_ok (tracking_on self) self) t /\
      count is_model_call t = count is_good_read t
  | Raised e fs' t =>
      e = StopException /\ fs' = fs /\ count is_release t = 1%nat /\
      Forall (call_ok (tracking_on self) self) t /\
      count is_model_call t = count is_good_read t
  | OutOfFuel => True
  end.

(** [self.source in ["video", "webcam"]] *)
Definition is_stream (s : option SourceKind) : bool :=
  match s with
  | Some Video | Some Webcam => true
  | _ => false
  end.

(** The Stop button, the capture opened, the error if it is not open. *)
Definition open_trace (self : Inference) (cap : Capture) : list Event :=
  [EWidget "Stop"; ECapOpen (vid_file_name self)] ++
  (if cap_opened cap then [] else [EError "Could not open video/webcam."]).

(** What follows the loop: [cap.release()], [cv2.destroyAllWindows()]. *)
Definition finish_stream (o : Outcome (Inference * Capture))
  : Outcome Inference :=
  match o with
  | Done (self, _) fs t => Done self fs (t ++ [ECapRelease; EDestroyAllWindows])
  | Raised e fs t => Raised e fs t
  | OutOfFuel => OutOfFuel
  end.

(** ** The entry point *)

(** [sys.argv[1] if len(sys.argv) > 1 else None] *)
Definition argv_model (argv : list string) : option string :=
  if (1 <? length argv)%nat then nth_error argv 1 else None.

(** The object [Inference(model=model_arg)] builds. *)
Definition fresh (model_arg : option string) : Inference :=
  mkInference None None (25 # 100) (45 # 100) VNone [] None
    model_arg
    (match model_arg with Some p => Some p | None => None end)
    None.


(** ** More readings of a run *)

(** The disk a run that ended leaves. *)
Definition disk_of {A} (o : Outcome A) : option FS :=
  match o with
  | Done _ fs _ => Some fs
  | Raised _ fs _ => Some fs
  | OutOfFuel => None
  end.

(** The events of [download_from_gdrive]: the console and the shell. *)
Definition is_download_event (e : Event) : bool :=
  match e with
  | EPrint _ | ESystem _ => true
  | _ => false
  end.

(** The events of the page and of [configure]: the console, the log, the
    shell, the widgets, the load of the model. *)
Definition is_setup_event (e : Event) : bool :=
  match e with
  | EPrint _ | ELog _ | ESystem _ | EWidget _ | EMarkdown
  | ELoadModel _ | ESuccess _ => true
  | _ => false
  end.

(** The thresholds the two sliders give, from the defaults of [__init__]. *)
Definition ui_conf_value (ui : UI) : Q := default (25 # 100) (ui_conf ui).
Definition ui_iou_value (ui : UI) : Q := default (45 # 100) (ui_iou ui).

(** A model call as the widgets of the run ask for it. *)
Definition call_from_ui (ui : UI) (e : Event) : Prop :=
  match e with
  | EPredict _ c i classes =>
      c = ui_conf_value ui /\ i = ui_iou_value ui /\ classes = [] /\
      (ui_source ui = Image \/ ui_tracking ui = No)
  | EPredictNone c i classes =>
      c = ui_conf_value ui /\ i = ui_iou_value ui /\ classes = [] /\
      ui_source ui = Image
  | ETrack _ c i classes persist =>
      c = ui_conf_value ui /\ i = ui_iou_value ui /\ classes = [] /\
      persist = true /\ ui_source ui <> Image /\ ui_tracking ui = Yes
  | _ => True
  end.

(** The name [source_upload] leaves in [self.vid_file_name]. *)
Definition capture_name (ui : UI) : PyVal :=
  match ui_source ui with
  | Webcam => VInt 0
  | Video =>
      match ui_video_file ui with
      | Some _ => VStr "uploaded_video.mp4"
      | None => VStr ""
      end
  | Image => VStr ""
  end.

(** A capture, if one is opened by this event, is opened on [name]. *)
Definition opens_only (name : PyVal) (e : Event) : Prop :=
  match e with
  | ECapOpen name' => name' = name
  | _ => True
  end.

(** [self] as it would be with the command-line argument [a]. *)
Definition with_model_arg (a : option string) (self : Inference) : Inference :=
  mkInference (source self) (enable_trk self) (conf self) (iou self)
    (vid_file_name self) (selected_ind self) (model self)
    a (match a with Some p => Some p | None => None end) (image_data self).

(** An outcome with its result changed by [f]. *)
Definition map_outcome {A B} (f : A -> B) (o : Outcome A) : Outcome B :=
  match o with
  | Done a fs t => Done (f a) fs t
  | Raised e fs t => Raised e fs t
  | OutOfFuel => OutOfFuel
  end.

End Vocabulary.

(** * The script on a small world

    Frames are numbers; a loaded model counts the calls made on it; the
    plain call answers [frame + 100], the tracker [frame + 200]; a plot
    is the answer itself; an upload that starts with [<] (a page of
    markup) is no image, an empty one makes the decoder raise, and any
    other decodes to the number of its bytes; the model called with no
    image answers [0]; [YOLO] loads any file that is on disk. *)

Definition demo_predict (m f : nat) (c i : Q) (classes : list Z) : nat * nat :=
  ((f + 100)%nat, S m).

Definition demo_track (m f : nat) (c i : Q) (classes : list Z) (persist : bool)
  : nat * nat :=
  ((f + 200)%nat, S m).

Definition demo_plot (r : nat) : nat := r.

Definition demo_predict_none (m : nat) (c i : Q) (classes : list Z)
  : Exn + (nat * nat) :=
  inr (0%nat, S m).

Definition demo_imdecode (b : bytes) : Decoded nat :=
  match b with
  | [] => DRaises (LibraryError "cv2.imdecode")
  | Byte.x3c :: _ => DNone
  | _ => DImage (length b)
  end.

Definition demo_yolo (p : string) (fs : FS) : Exn + nat :=
  if os_path_exists p fs then inr 0%nat else inl (FileNotFoundError p).

(** No network: the command fails (status 4 of [wget]) and leaves the
    disk as it is. *)
Definition wget_nothing (command : string) (fs : FS) : Z * FS := (4%Z, fs).


(** The command delivers a model of 10001 bytes. *)
Definition wget_model (command : string) (fs : FS) : Z * FS :=
  (0%Z,
   fs_write "models/YOLO11m_baseline.pt" (repeat Byte.x00 (Z.to_nat 10001)) fs).

(** The command leaves a file of exactly 10000 bytes. *)
Definition wget_boundary (command : string) (fs : FS) : Z * FS :=
  (0%Z,
   fs_write "models/YOLO11m_baseline.pt" (repeat Byte.x00 (Z.to_nat 10000)) fs).


(** A camera that is open and has a frame at every read. *)
Definition demo_camera (name : PyVal) (fs : FS) : Capture nat :=
  mkCapture true (fun k => RFrame k).

(** A device that does not open. *)
Definition demo_no_device (name : PyVal) (fs : FS) : Capture nat :=
  mkCapture false (fun _ => RReadError).

(** A video of the given frames, ended by [last]; any name opens it. *)
Definition demo_video (frames : list nat) (last : ReadOutcome nat)
    (name : PyVal) (fs : FS) : Capture nat :=
  mkCapture true (stream_of frames (fun _ => last)).

(** A disk with the first model of the table cached (three bytes). *)
Definition demo_disk : FS :=
  mkFS {[ "models/YOLO11m_baseline.pt" := [Byte.x01; Byte.x02; Byte.x03] ]} ∅.

Definition empty_disk : FS := mkFS ∅ ∅.

(** A disk on which [models] is a regular file. *)
Definition blocked_disk : FS := mkFS {[ "models" := [Byte.x00] ]} ∅.

Definition demo_world (wget : string -> FS -> Z * FS)
    (video : PyVal -> FS -> Capture nat) : World nat nat nat :=
  {| os_system := wget;
     YOLO := demo_yolo;
     predict := demo_predict;
     predict_none := demo_predict_none;
     track := demo_track;
     plot := demo_plot;
     imdecode := demo_imdecode;
     st_image_none := LibraryError "st.image";
     VideoCapture := video |}.

Definition demo_main wget video :=
  main (W := demo_world wget video).

Definition demo_start_pressed video :=
  start_pressed (W := demo_world wget_nothing video).

(** The widgets as a user leaves them: source, tracking, upload, buttons. *)
Definition demo_ui (src : SourceKind) (trk : YesNo) (video image : option bytes)
    (start stop : bool) : UI :=
  mkUI src trk None None video image 0 start stop.

(** [self] at the Start button, with the default thresholds. *)
Definition demo_self (src : SourceKind) (trk : YesNo) (name : PyVal)
    (image : option bytes) : Inference nat :=
  mkInference (Some src) (Some trk) (25 # 100) (45 # 100) name [] (Some 0%nat)
    None None image.

(** A disk with the first and the last model of the table cached. *)
Definition two_model_disk : FS :=
  mkFS {[ "models/YOLO11m_baseline.pt" := [Byte.x01; Byte.x02; Byte.x03];
          "models/YOLO11m_CBAM.pt" := [Byte.x04; Byte.x05; Byte.x06] ]} ∅.

Definition script : string := "streamlit_detection_OP.py".

(** The page up to the Start button, for a cached first model. *)
Definition demo_page (arg : option string) (upload : string)
  : list (Event nat) :=
  [ELog arg; EWidget "page_config"; EMarkdown; EMarkdown; EMarkdown;
   EWidget "logo"; EWidget "User Configuration"; EWidget "Select Source";
   EWidget "Enable Tracking"; EWidget "Confidence Threshold";
   EWidget "IoU Threshold"; EWidget "columns"; EWidget upload;
   EWidget "Model"; EPrint (MsgExists "YOLO11m_baseline");
   ELoadModel "models/YOLO11m_baseline.pt";
   ESuccess "Model loaded successfully!"; EWidget "Start"].

(** * Properties *)

Section Properties.

Context {Frame ModelSt Results : Type} `{W : World Frame ModelSt Results}.

Local Abbreviation Event := (Event Frame).
Local Abbreviation Outcome := (Outcome Frame).
Local Abbreviation M := (M Frame).
Local Abbreviation ReadOutcome := (ReadOutcome Frame).
Local Abbreviation Capture := (Capture Frame).
Local Abbreviation Inference := (Inference ModelSt).
Local Abbreviation page_trace := (page_trace (Frame := Frame)).
Local Abbreviation failed_read_trace := (failed_read_trace (Frame := Frame)).
Local Abbreviation fresh := (fresh (ModelSt := ModelSt)).

(** ** Reading a trace *)

Lemma count_app (p : Event -> bool) (t1 t2 : list Event) :
  count p (t1 ++ t2) = (count p t1 + count p t2)%nat.
Proof.
  induction t1 as [|e t1 IH]; simpl; [reflexivity|].
  rewrite IH. lia.
Qed.

(** ** The downloader *)

Ltac run_script :=
  unfold bind, ret, emit, raise, get_fs, modify_fs, try_except; simpl.

Lemma os_path_exists_true p fs :
  os_path_exists p fs = true <-> is_Some (files fs !! p).
Proof. unfold os_path_exists. apply bool_decide_eq_true. Qed.

Lemma os_path_exists_false p fs :
  os_path_exists p fs = false <-> files fs !! p = None.
Proof.
  unfold os_path_exists. rewrite bool_decide_eq_false.
  rewrite eq_None_not_Some. reflexivity.
Qed.

Lemma large_enough_Some p fs n :
  large_enough p fs = Some n ->
  exists b, files fs !! p = Some b /\ n = Z.of_nat (length b) /\ (10000 < n)%Z.
Proof.
  unfold large_enough, os_path_getsize.
  destruct (files fs !! p) as [b|]; simpl; [|discriminate].
  destruct (Z.gtb_spec (Z.of_nat (length b)) 10000); [|discriminate].
  intros [= <-]. eauto.
Qed.

Lemma large_enough_None p fs :
  large_enough p fs = None <->
  files fs !! p = None \/
  exists b, files fs !! p = Some b /\ (Z.of_nat (length b) <= 10000)%Z.
Proof.
  unfold large_enough, os_path_getsize.
  destruct (files fs !! p) as [b|]; simpl.
  - destruct (Z.gtb_spec (Z.of_nat (length b)) 10000); split.
    + discriminate.
    + intros [[=]|(b' & [= <-] & Hle)]. lia.
    + intros _. right. eauto.
    + reflexivity.
  - split; [auto|reflexivity].
Qed.

(** The artifact is on disk already: nothing is fetched, nothing changes. *)
Lemma download_cached file_id model_name fs :
  is_Some (files fs !! model_file model_name) ->
  download_from_gdrive file_id model_name fs
  = Done tt fs [EPrint (MsgExists model_name)].
Proof.
  intros H. apply os_path_exists_true in H.
  unfold download_from_gdrive. run_script. rewrite H. reflexivity.
Qed.

(** The artifact is missing: the command is run once and its result kept
    or removed by size. *)
Lemma download_missing file_id model_name fs :
  files fs !! model_file model_name = None ->
  files fs !! "models" = None ->
  let path := model_file model_name in
  let command := wget_command path (gdrive_url file_id) in
  let fs1 := fetched file_id model_name fs in
  download_from_gdrive file_id model_name fs =
  match large_enough path fs1 with
  | Some n =>
      Done tt fs1 [EPrint (MsgDownloading model_name); ESystem command;
                   EPrint (MsgDownloaded model_name n)]
  | None =>
      if os_path_exists path fs1 then
        Done tt (fs_remove path fs1)
          [EPrint (MsgDownloading model_name); ESystem command;
           EPrint (MsgFailed model_name)]
      else
        Done tt fs1
          [EPrint (MsgDownloading model_name); ESystem command;
           EPrint (MsgFailed model_name);
           EPrint (MsgDownloadError (FileNotFoundError path))]
  end.
Proof.
  intros H Hdir. apply os_path_exists_false in H, Hdir.
  unfold download_from_gdrive, os_makedirs, run_command, os_remove, fetched.
  cbv beta iota zeta delta [bind ret emit raise get_fs modify_fs try_except].
  rewrite H. cbv beta iota zeta delta [negb]. rewrite Hdir.
  destruct (os_system _ _) as [status fs1]. cbn [snd app].
  destruct (large_enough _ _); [reflexivity|].
  destruct (os_path_exists _ fs1); reflexivity.
Qed.

(** The artifact is missing and [models] is a regular file:
    [os.makedirs], which is not inside the [try], raises; nothing is
    printed and no command is run. *)
Lemma download_blocked file_id model_name fs :
  files fs !! model_file model_name = None ->
  is_Some (files fs !! "models") ->
  download_from_gdrive file_id model_name fs
  = Raised (FileExistsError "models") fs [].
Proof.
  intros H Hdir. apply os_path_exists_false in H.
  apply os_path_exists_true in Hdir.
  unfold download_from_gdrive, os_makedirs.
  cbv beta iota zeta delta [bind ret emit raise get_fs modify_fs try_except].
  rewrite H. cbv beta iota zeta delta [negb]. rewrite Hdir. reflexivity.
Qed.

(** After a call that found no artifact, a file at the path has more
    than 10000 bytes. *)
Lemma download_keeps_only_large file_id model_name fs fs' t b :
  files fs !! model_file model_name = None ->
  download_from_gdrive file_id model_name fs = Done tt fs' t ->
  files fs' !! model_file model_name = Some b ->
  (10000 < Z.of_nat (length b))%Z.
Proof.
  intros Hmiss.
  destruct (files fs !! "models") as [d|] eqn:Hdir;
    [rewrite download_blocked by eauto; discriminate|].
  rewrite download_missing by assumption. cbv zeta.
  destruct (large_enough _ _) as [n|] eqn:Hn.
  - intros [= <- _] Hb. apply large_enough_Some in Hn.
    destruct Hn as (b' & Hb' & -> & Hlt).
    fold (fetched file_id model_name fs) in Hb.
    rewrite Hb' in Hb. injection Hb as <-. exact Hlt.
  - destruct (os_path_exists _ _) eqn:Hex; intros [= <- _] Hb.
    + unfold fs_remove in Hb. simpl in Hb. rewrite lookup_delete_eq in Hb.
      discriminate Hb.
    + apply os_path_exists_false in Hex. rewrite Hex in Hb. discriminate Hb.
Qed.

(** Whatever the disk, a call ends: it returns, or [os.makedirs] has
    raised before anything was printed or run. The command is run at most
    once, and the events are those of the console and the shell. *)
Lemma download_ends file_id model_name fs :
  (exists fs1 t1,
     download_from_gdrive file_id model_name fs = Done tt fs1 t1 /\
     (count is_fetch t1 <= 1)%nat /\
     forallb is_download_event t1 = true /\
     (is_Some (files fs !! model_file model_name) \/
      files fs !! "models" = None)) \/
  (download_from_gdrive file_id model_name fs
   = Raised (FileExistsError "models") fs [] /\
   files fs !! model_file model_name = None /\
   is_Some (files fs !! "models")).
Proof.
  destruct (files fs !! model_file model_name) as [b|] eqn:E.
  - left. rewrite download_cached by eauto. eexists _, _.
    split; [reflexivity|]. split; [simpl; lia|]. split; [reflexivity|eauto].
  - destruct (files fs !! "models") as [d|] eqn:Hdir.
    + right. rewrite download_blocked by eauto. eauto.
    + left. rewrite download_missing by assumption.
      destruct (large_enough _ _); [|destruct (os_path_exists _ _)];
        eexists _, _; (split; [reflexivity|]); (split; [simpl; lia|]);
        (split; [reflexivity|auto]).
Qed.

Lemma download_events_no_load (t : list Event) p :
  forallb is_download_event t = true -> ~ In (ELoadModel p) t.
Proof.
  induction t as [|e t IH]; intros H; [intros []|].
  cbn [forallb] in H. apply andb_prop in H. destruct H as [He Ht].
  intros [Hp|Hp]; [subst e; discriminate He|exact (IH Ht Hp)].
Qed.

Lemma download_events_quiet (t : list Event) :
  forallb is_download_event t = true ->
  count is_release t = 0%nat /\ count is_cap_open t = 0%nat.
Proof.
  induction t as [|e t IH]; intros H; [split; reflexivity|].
  cbn [forallb] in H. apply andb_prop in H. destruct H as [He Ht].
  destruct (IH Ht) as [H1 H2].
  destruct e; try discriminate He; cbn [count is_release is_cap_open];
    rewrite H1, H2; split; reflexivity.
Qed.

Lemma download_fetches_at_most_once file_id model_name fs :
  forall t1, trace_of (download_from_gdrive file_id model_name fs) = Some t1 ->
             (count is_fetch t1 <= 1)%nat.
Proof.
  destruct (download_ends file_id model_name fs)
    as [(fs1 & t1 & -> & Hle & _)|(-> & _)]; cbn [trace_of];
    intros t [= <-]; [exact Hle|simpl; lia].
Qed.

(** C9. Resolving a model again while its artifact is at
    [models/<name>.pt] fetches nothing: whatever the first call did, once
    the file is there the second call leaves the disk as it is and only
    prints that the file exists, so both calls together have run the
    download command at most once. Only the presence of the path is
    looked at, not the size or the content of the file. *)
Theorem resolve_again_fetches_nothing file_id model_name fs fs1 t1 :
  download_from_gdrive file_id model_name fs = Done tt fs1 t1 ->
  is_Some (files fs1 !! model_file model_name) ->
  (download_from_gdrive file_id model_name ;;
   download_from_gdrive file_id model_name) fs
  = Done tt fs1 (t1 ++ [EPrint (MsgExists model_name)])
  /\ count is_fetch (t1 ++ [EPrint (MsgExists model_name)]) = count is_fetch t1
  /\ (count is_fetch t1 <= 1)%nat.
Proof.
  intros H1 Hfile. split; [|split].
  - unfold bind. rewrite H1, (download_cached _ _ _ Hfile). reflexivity.
  - rewrite count_app. simpl. lia.
  - apply (download_fetches_at_most_once file_id model_name fs).
    rewrite H1. reflexivity.
Qed.

(** ** From the top of [inference] to the Start button *)

(** [inference] is: draw the page, [configure], then the Start button. *)
Lemma inference_eq fuel self ui fs :
  inference fuel self ui fs =
  after_trace (page_trace ui)
    ((self <- configure (prepared self ui) ui ;;
      start <- button "Start" (ui_start ui) ;;
      if start then start_pressed fuel self ui else ret self) (uploaded ui fs)).
Proof.
  unfold inference, web_ui, sidebar, source_upload, slider, prepared,
    uploaded, page_trace, after_sidebar.
  destruct ui as [src trk c i vf imf mdl st sp]; simpl.
  destruct src; [|destruct vf|destruct imf]; run_script;
    match goal with
    | |- context [configure ?s ?u ?f] => destruct (configure s u f); simpl
    end; try reflexivity;
    destruct st; simpl;
    match goal with
    | |- context [start_pressed ?n ?s ?u ?f] =>
        destruct (start_pressed n s u f); simpl
    | _ => idtac
    end; reflexivity.
Qed.

Lemma dict_lookup_available name :
  In name available_models -> is_Some (dict_lookup GDRIVE_MODELS name).
Proof.
  unfold available_models, GDRIVE_MODELS. simpl.
  intros [<-|[<-|[<-|[<-|[]]]]]; simpl; eauto.
Qed.

Lemma select_option_available choice :
  exists name, select_option available_models choice = Some name /\
               In name available_models.
Proof.
  unfold select_option.
  destruct (nth_error available_models choice) as [o|] eqn:E.
  - exists o. split; [reflexivity|]. eapply nth_error_In; eauto.
  - eexists. split; [reflexivity|]. simpl. auto.
Qed.

(** [configure] with the chosen name and its Drive id. *)
Lemma configure_eq self ui fs name file_id :
  select_option available_models (ui_model ui) = Some name ->
  dict_lookup GDRIVE_MODELS name = Some file_id ->
  configure self ui fs =
  after_trace [EWidget "Model"]
    ((download_from_gdrive file_id name ;;
      m <- load_model (model_file name) ;;
      emit (ESuccess "Model loaded successfully!") ;;
      ret (set_model (Some m) self)) fs).
Proof.
  intros Hsel Hid.
  cbv beta iota delta [configure selectbox dict_get bind emit ret after_trace].
  rewrite Hsel, Hid.
  destruct (download_from_gdrive file_id name fs) as [[] fs1 t1|e fs1 t1|];
    [|reflexivity..].
  destruct (load_model (model_file name) fs1); reflexivity.
Qed.




(** ** The loop over a stream *)

Lemma loop_body_bad_read self stop cap fs :
  is_frame (cap_frames cap 0) = false ->
  loop_body self stop cap fs
  = Done (Break, self, advance cap) fs failed_read_trace.
Proof.
  intros H. unfold loop_body, cap_read. run_script.
  destruct (cap_frames cap 0); [discriminate H|reflexivity..].
Qed.

Lemma loop_body_good_read self stop cap fs m f :
  model self = Some m ->
  cap_frames cap 0 = RFrame f ->
  let trk := tracking_on self in
  let '(r, m') := call_result trk self m f in
  loop_body self stop cap fs =
  if stop then
    Raised StopException fs
      [ECapRead true; call_event trk self f; EPlot; ECapRelease; EStStop]
  else
    Done (Continue, set_model (Some m') self, advance cap) fs
      (pass_trace trk self (f, plot r)).
Proof.
  intros Hm Hf. simpl.
  unfold loop_body, cap_read, call_result, call_event, call_track,
    call_predict, plot_first, cap_release, st_stop, pass_trace.
  run_script. rewrite Hf, Hm. simpl.
  destruct (tracking_on self); simpl.
  - destruct (track _ _ _ _ _ _) as [r m'].
    destruct stop; reflexivity.
  - destruct (predict _ _ _ _ _) as [r m'].
    destruct stop; reflexivity.
Qed.

Lemma call_result_set_model trk v self m f :
  call_result trk (set_model v self) m f = call_result trk self m f.
Proof. reflexivity. Qed.

Lemma annotate_set_model trk v self m frames :
  annotate trk (set_model v self) m frames = annotate trk self m frames.
Proof.
  revert m. induction frames as [|f frames IH]; intros m; cbn [annotate];
    [reflexivity|].
  rewrite call_result_set_model.
  destruct (call_result trk self m f) as [r m1].
  rewrite IH. reflexivity.
Qed.

(** The loop over a source of [frames] followed by a read that gives no
    frame, the Stop button not pressed: one showing pass per frame, then
    the failed read. *)
Lemma stream_loop_frames frames : forall rest fuel self m fs,
  model self = Some m ->
  is_frame (rest 0%nat) = false ->
  (length frames < fuel)%nat ->
  let trk := tracking_on self in
  stream_loop fuel self false (mkCapture true (stream_of frames rest)) fs =
  Done (set_model (Some (snd (annotate trk self m frames))) self,
        mkCapture true (fun i => rest (S i))) fs
       (flat_map (pass_trace trk self) (fst (annotate trk self m frames))
        ++ failed_read_trace).
Proof.
  induction frames as [|f frames IH]; intros rest fuel self m fs Hm Hrest Hfuel;
    (destruct fuel as [|fuel]; [simpl in Hfuel; lia|]); simpl.
  - unfold bind. rewrite loop_body_bad_read by exact Hrest.
    unfold ret. simpl. destruct self; simpl in *; subst; reflexivity.
  - unfold bind.
    pose proof (loop_body_good_read self false
                  (mkCapture true (stream_of (f :: frames) rest)) fs m f Hm eq_refl) as Hb.
    simpl in Hb.
    destruct (call_result (tracking_on self) self m f) as [r m1] eqn:Hr.
    rewrite Hb.
    change (advance (mkCapture true (stream_of (f :: frames) rest)))
      with (mkCapture true (stream_of frames rest)).
    rewrite (IH rest fuel (set_model (Some m1) self) m1 fs eq_refl Hrest)
      by (simpl in Hfuel; lia).
    change (tracking_on (set_model (Some m1) self)) with (tracking_on self).
    rewrite annotate_set_model.
    destruct (annotate (tracking_on self) self m1 frames) as [ps m2].
    reflexivity.
Qed.

(** The loop, one pass unfolded. *)
Lemma stream_loop_step fuel self stop cap fs m :
  model self = Some m ->
  cap_opened cap = true ->
  let trk := tracking_on self in
  stream_loop (S fuel) self stop cap fs =
  match cap_frames cap 0 with
  | RFrame f =>
      if stop then
        Raised StopException fs
          [ECapRead true; call_event trk self f; EPlot; ECapRelease; EStStop]
      else
        after_trace
          (pass_trace trk self (f, plot (fst (call_result trk self m f))))
          (stream_loop fuel
             (set_model (Some (snd (call_result trk self m f))) self)
             stop (advance cap) fs)
  | _ => Done (self, advance cap) fs failed_read_trace
  end.
Proof.
  intros Hm Hopen. simpl. rewrite Hopen. unfold bind.
  destruct (cap_frames cap 0) as [f| |] eqn:Hf.
  - pose proof (loop_body_good_read self stop cap fs m f Hm Hf) as Hb.
    simpl in Hb.
    destruct (call_result (tracking_on self) self m f) as [r m'].
    rewrite Hb. destruct stop; [reflexivity|]. simpl.
    destruct (stream_loop fuel _ false (advance cap) fs); reflexivity.
  - rewrite loop_body_bad_read by (rewrite Hf; reflexivity). reflexivity.
  - rewrite loop_body_bad_read by (rewrite Hf; reflexivity). reflexivity.
Qed.

Lemma stream_loop_closed fuel self stop cap fs :
  cap_opened cap = false ->
  stream_loop fuel self stop cap fs = Done (self, cap) fs [].
Proof. intros H. destruct fuel; simpl; rewrite H; reflexivity. Qed.

Lemma call_ok_call_event trk (self : Inference) (f : Frame) :
  call_ok trk self (call_event trk self f).
Proof. unfold call_event. destruct trk; reflexivity. Qed.

Lemma pass_trace_calls trk (self : Inference) (p : Frame * Frame) :
  Forall (call_ok trk self) (pass_trace trk self p) /\
  count is_model_call (pass_trace trk self p) = 1%nat /\
  count is_good_read (pass_trace trk self p) = 1%nat /\
  count is_release (pass_trace trk self p) = 0%nat.
Proof.
  unfold pass_trace. split.
  - repeat constructor. apply call_ok_call_event.
  - unfold call_event. destruct trk; repeat split; reflexivity.
Qed.

Lemma stream_loop_ends_well fuel : forall self stop cap fs m,
  model self = Some m ->
  loop_ends_well self fs (stream_loop fuel self stop cap fs).
Proof.
  induction fuel as [|fuel IH]; intros self stop cap fs m Hm.
  - simpl. destruct (cap_opened cap); simpl; [exact I|].
    repeat split. constructor.
  - destruct (cap_opened cap) eqn:Hopen.
    2:{ rewrite stream_loop_closed by exact Hopen. simpl.
        repeat split. constructor. }
    rewrite (stream_loop_step _ _ _ _ _ _ Hm Hopen). cbv zeta.
    destruct (cap_frames cap 0) as [f| |].
    + destruct stop.
      * unfold loop_ends_well, call_event.
        destruct (tracking_on self); simpl; repeat split; repeat constructor.
      * set (m1 := snd (call_result (tracking_on self) self m f)).
        set (p := (f, plot (fst (call_result (tracking_on self) self m f)))).
        specialize (IH (set_model (Some m1) self) false (advance cap) fs m1 eq_refl).
        destruct (pass_trace_calls (tracking_on self) self p) as (Hc & Hn & Hr & Hl).
        destruct (stream_loop fuel (set_model (Some m1) self) false (advance cap) fs)
          as [[s' c'] fs' t|e fs' t|];
          cbn [after_trace loop_ends_well] in *; [| |exact I].
        -- destruct IH as (-> & Hrel & Hall & Hcnt).
           rewrite !count_app, Hn, Hr, Hl, Hrel, Hcnt.
           repeat split. apply Forall_app. split; assumption.
        -- destruct IH as (-> & -> & Hrel & Hall & Hcnt).
           rewrite !count_app, Hn, Hr, Hl, Hrel, Hcnt.
           repeat split. apply Forall_app. split; assumption.
    + simpl. repeat split. repeat constructor.
    + simpl. repeat split. repeat constructor.
Qed.

(** The loop ends when some read gives no frame and the fuel reaches it,
    and at once when the Stop button is pressed. *)
Lemma stream_loop_reaches_bad_read k : forall fuel self stop cap fs m,
  model self = Some m ->
  is_frame (cap_frames cap k) = false ->
  (k < fuel)%nat ->
  stream_loop fuel self stop cap fs <> OutOfFuel.
Proof.
  induction k as [|k IH]; intros fuel self stop cap fs m Hm Hbad Hfuel;
    (destruct fuel as [|fuel]; [lia|]);
    (destruct (cap_opened cap) eqn:Hopen;
      [|rewrite stream_loop_closed by exact Hopen; discriminate]);
    rewrite (stream_loop_step _ _ _ _ _ _ Hm Hopen); cbv zeta.
  - destruct (cap_frames cap 0); [discriminate Hbad|discriminate..].
  - destruct (cap_frames cap 0) as [f| |]; [|discriminate..].
    destruct stop; [discriminate|].
    specialize (IH fuel
      (set_model (Some (snd (call_result (tracking_on self) self m f))) self)
      false (advance cap) fs _ eq_refl Hbad ltac:(lia)).
    destruct (stream_loop fuel _ false (advance cap) fs); simpl;
      [discriminate|discriminate|contradiction].
Qed.

(** A camera that always has a frame, the Stop button not pressed: the
    loop has no way out, whatever the fuel. *)
Lemma stream_loop_runs_on fuel : forall self cap fs m,
  model self = Some m ->
  cap_opened cap = true ->
  (forall k, is_frame (cap_frames cap k) = true) ->
  stream_loop fuel self false cap fs = OutOfFuel.
Proof.
  induction fuel as [|fuel IH]; intros self cap fs m Hm Hopen Hall.
  - simpl. rewrite Hopen. reflexivity.
  - rewrite (stream_loop_step _ _ _ _ _ _ Hm Hopen). cbv zeta.
    pose proof (Hall 0%nat) as H0.
    destruct (cap_frames cap 0) as [f| |]; [|discriminate H0..].
    erewrite IH; [reflexivity|reflexivity|exact Hopen|].
    intros k. exact (Hall (S k)).
Qed.

Lemma stream_loop_stop_pressed fuel self cap fs m :
  model self = Some m ->
  stream_loop (S fuel) self true cap fs <> OutOfFuel.
Proof.
  intros Hm. destruct (cap_opened cap) eqn:Hopen;
    [|rewrite stream_loop_closed by exact Hopen; discriminate].
  rewrite (stream_loop_step _ _ _ _ _ _ Hm Hopen); cbv zeta.
  destruct (cap_frames cap 0); discriminate.
Qed.

(** ** After the Start button *)

Lemma start_pressed_stream fuel self ui fs :
  is_stream (source self) = true ->
  let cap := VideoCapture (vid_file_name self) fs in
  start_pressed fuel self ui fs =
  after_trace (open_trace self cap)
    (finish_stream (stream_loop fuel self (ui_stop ui) cap fs)).
Proof.
  intros Hs. unfold start_pressed, run_stream, button, open_trace, cap_release.
  assert (Hsrc : source self = Some Video \/ source self = Some Webcam).
  { destruct (source self) as [[| |]|]; try discriminate Hs; auto. }
  destruct Hsrc as [-> | ->]; run_script;
    destruct (cap_opened (VideoCapture (vid_file_name self) fs)); simpl;
    destruct (stream_loop _ _ _ _ _) as [[s' c'] fs' t|e fs' t|]; simpl;
    rewrite <- ?app_assoc; reflexivity.
Qed.

(** The Start branch on the source "image", the model loaded. *)
Lemma start_pressed_image fuel self ui fs m :
  source self = Some Image ->
  model self = Some m ->
  start_pressed fuel self ui fs =
  match image_data self with
  | None => Raised (AttributeError "image_data") fs []
  | Some file_bytes =>
      match imdecode file_bytes with
      | DImage image =>
          let r := predict m image (conf self) (iou self) (selected_ind self) in
          Done (set_model (Some (snd r)) self) fs
            [EPredict image (conf self) (iou self) (selected_ind self); EPlot;
             EOrgImage image (Some "Original Image");
             EAnnImage (plot (fst r)) (Some "Detected Image");
             EDestroyAllWindows]
      | DNone =>
          match predict_none m (conf self) (iou self) (selected_ind self) with
          | inl e =>
              Raised e fs [EPredictNone (conf self) (iou self) (selected_ind self)]
          | inr _ =>
              Raised st_image_none fs
                [EPredictNone (conf self) (iou self) (selected_ind self); EPlot]
          end
      | DRaises e => Raised e fs []
      end
  end.
Proof.
  intros Hs Hm.
  unfold start_pressed, run_image, call_predict, call_predict_none, plot_first.
  rewrite Hs, Hm. run_script.
  destruct (image_data self) as [b|]; [|reflexivity].
  destruct (imdecode b) as [image| |e]; simpl; [| |reflexivity].
  - destruct (predict _ _ _ _ _) as [r m']. reflexivity.
  - destruct (predict_none _ _ _ _) as [e|[r m']]; reflexivity.
Qed.

Lemma start_pressed_no_source fuel self ui fs :
  source self = None ->
  start_pressed fuel self ui fs = Done self fs [EDestroyAllWindows].
Proof. intros Hs. unfold start_pressed. rewrite Hs. reflexivity. Qed.

(** The source is one of the three of the select box, or not set. *)
Lemma source_cases (self : Inference) :
  is_stream (source self) = true \/ source self = Some Image \/
  source self = None.
Proof. destruct (source self) as [[| |]|]; simpl; auto. Qed.

Lemma emissions_passes trk (self : Inference) (ps : list (Frame * Frame)) :
  forall tail,
  emissions (flat_map (pass_trace trk self) ps ++ tail) = ps ++ emissions tail.
Proof.
  induction ps as [|[f a] ps IH]; intros tail; [reflexivity|].
  cbn [flat_map]. rewrite <- app_assoc.
  unfold pass_trace at 1. unfold call_event.
  destruct trk; simpl; rewrite IH; reflexivity.
Qed.

Lemma count_release_passes trk (self : Inference) (ps : list (Frame * Frame)) :
  count is_release (flat_map (pass_trace trk self) ps) = 0%nat.
Proof.
  induction ps as [|p ps IH]; [reflexivity|].
  cbn [flat_map]. rewrite count_app, IH.
  destruct (pass_trace_calls trk self p) as (_ & _ & _ & ->). reflexivity.
Qed.

Lemma annotate_frames trk self frames : forall m,
  map fst (fst (annotate trk self m frames)) = frames.
Proof.
  induction frames as [|f frames IH]; intros m; cbn [annotate]; [reflexivity|].
  destruct (call_result trk self m f) as [r m1].
  specialize (IH m1). destruct (annotate trk self m1 frames) as [ps m2].
  simpl in *. rewrite IH. reflexivity.
Qed.

(** C1, as the script has it. A source gives the frames [frames] and then
    a read without a frame: the end of the file ([REndOfStream]) or a
    failed read ([RReadError]), [cap.read()] tells them apart in no way.
    With the Stop button not pressed, the run shows one (original,
    annotated) pair per frame, in order, then warns "Failed to read
    frame.", releases the capture and returns. The run is the same for
    both kinds of last read. *)
Theorem video_run_shows_every_frame fuel self ui fs m frames rest :
  is_stream (source self) = true ->
  model self = Some m ->
  ui_stop ui = false ->
  VideoCapture (vid_file_name self) fs = mkCapture true (stream_of frames rest) ->
  is_frame (rest 0%nat) = false ->
  (length frames < fuel)%nat ->
  let trk := tracking_on self in
  let pairs := fst (annotate trk self m frames) in
  let t :=
    [EWidget "Stop"; ECapOpen (vid_file_name self)] ++
    flat_map (pass_trace trk self) pairs ++
    [ECapRead false; EWarning "Failed to read frame.";
     ECapRelease; EDestroyAllWindows] in
  start_pressed fuel self ui fs
  = Done (set_model (Some (snd (annotate trk self m frames))) self) fs t
  /\ emissions t = pairs
  /\ map fst pairs = frames
  /\ length (emissions t) = length frames
  /\ count is_release t = 1%nat.
Proof.
  intros Hs Hm Hstop Hcap Hrest Hfuel trk pairs t.
  assert (Hem : emissions t = pairs).
  { unfold t. cbn [app emissions]. rewrite emissions_passes.
    simpl. apply app_nil_r. }
  assert (Hfst : map fst pairs = frames) by apply annotate_frames.
  split; [|split; [exact Hem|split; [exact Hfst|split]]].
  - rewrite (start_pressed_stream _ _ _ _ Hs). cbv zeta.
    rewrite Hcap, Hstop.
    rewrite (stream_loop_frames frames rest fuel self m fs Hm Hrest Hfuel).
    unfold t, open_trace, finish_stream, after_trace, failed_read_trace.
    cbn [cap_opened]. rewrite <- !app_assoc. reflexivity.
  - rewrite Hem, <- Hfst, length_map. reflexivity.
  - unfold t. cbn [app count is_release]. rewrite count_app, count_release_passes.
    reflexivity.
Qed.

(** C2. In a run over a video or a webcam, [cap.release()] is called
    exactly once however the run ends: after the loop when a read fails
    (end of the file or read error) or the capture did not open, inside
    the loop when the Stop button is pressed, where [st.stop()] then ends
    the script before the release after the loop. Each of these ways out
    is taken once the fuel reaches it. *)
Theorem capture_released_once fuel self ui fs m :
  is_stream (source self) = true ->
  model self = Some m ->
  let cap := VideoCapture (vid_file_name self) fs in
  (forall t, trace_of (start_pressed fuel self ui fs) = Some t ->
             count is_release t = 1%nat)
  /\ (cap_opened cap = false
      \/ (ui_stop ui = true /\ (0 < fuel)%nat)
      \/ (exists k, is_frame (cap_frames cap k) = false /\ (k < fuel)%nat) ->
      exists t, trace_of (start_pressed fuel self ui fs) = Some t).
Proof.
  intros Hs Hm cap.
  rewrite (start_pressed_stream _ _ _ _ Hs). cbv zeta. fold cap.
  pose proof (stream_loop_ends_well fuel self (ui_stop ui) cap fs m Hm) as Hinv.
  assert (Hopen : count is_release (open_trace self cap) = 0%nat).
  { unfold open_trace. destruct (cap_opened cap); reflexivity. }
  split.
  - intros t Ht.
    destruct (stream_loop fuel self (ui_stop ui) cap fs)
      as [[s' c'] fs' t'|e fs' t'|];
      cbn [after_trace finish_stream trace_of loop_ends_well] in *.
    + destruct Hinv as (_ & Hrel & _). injection Ht as <-.
      change (count is_release
                (open_trace self cap ++ t' ++ [ECapRelease; EDestroyAllWindows])
              = 1%nat).
      rewrite !count_app, Hopen, Hrel. reflexivity.
    + destruct Hinv as (_ & _ & Hrel & _). injection Ht as <-.
      change (count is_release (open_trace self cap ++ t') = 1%nat).
      rewrite count_app, Hopen, Hrel. reflexivity.
    + discriminate Ht.
  - intros Hexit.
    assert (Hend : stream_loop fuel self (ui_stop ui) cap fs <> OutOfFuel).
    { destruct Hexit as [Hclosed|[[Hstop Hfuel]|(k & Hbad & Hfuel)]].
      - rewrite stream_loop_closed by exact Hclosed. discriminate.
      - rewrite Hstop. destruct fuel as [|fuel]; [lia|].
        eapply stream_loop_stop_pressed; eauto.
      - eapply stream_loop_reaches_bad_read; eauto. }
    destruct (stream_loop fuel self (ui_stop ui) cap fs)
      as [[s' c'] fs' t'|e fs' t'|]; simpl; eauto.
    contradiction.
Qed.


(** C4. A run on an uploaded still image, that is, an upload that
    [cv2.imdecode] decodes to an image, for any thresholds in [0, 1] and
    any list of classes: one call of the model (never the tracker), one
    plot, the original and the annotated picture shown once, then
    [cv2.destroyAllWindows()] and the normal return. No Stop button is
    drawn and no capture is opened; the fuel of the stream loop plays no
    part. *)
Theorem image_run_shows_one_pair fuel self ui fs m file_bytes image :
  source self = Some Image ->
  image_data self = Some file_bytes ->
  imdecode file_bytes = DImage image ->
  model self = Some m ->
  (0 <= conf self <= 1)%Q ->
  (0 <= iou self <= 1)%Q ->
  let r := predict m image (conf self) (iou self) (selected_ind self) in
  let t := [EPredict image (conf self) (iou self) (selected_ind self); EPlot;
            EOrgImage image (Some "Original Image");
            EAnnImage (plot (fst r)) (Some "Detected Image");
            EDestroyAllWindows] in
  start_pressed fuel self ui fs = Done (set_model (Some (snd r)) self) fs t
  /\ emissions t = [(image, plot (fst r))]
  /\ count is_model_call t = 1%nat
  /\ ~ In (EWidget "Stop") t.
Proof.
  intros Hs Hi Hdec Hm _ _ r t.
  split; [|split; [reflexivity|split; [reflexivity|]]].
  - unfold start_pressed, run_image, call_predict, plot_first.
    rewrite Hs, Hi, Hdec. run_script. rewrite Hm. simpl.
    fold r. destruct r as [r0 m0]. reflexivity.
  - unfold t. simpl. intros H.
    repeat (destruct H as [H|H]; [discriminate H|]). exact H.
Qed.

Lemma start_pressed_image_calls fuel self ui fs :
  source self = Some Image ->
  forall t, trace_of (start_pressed fuel self ui fs) = Some t ->
            Forall (call_ok false self) t.
Proof.
  intros Hs t.
  unfold start_pressed, run_image, call_predict, call_predict_none, plot_first.
  rewrite Hs. run_script.
  destruct (image_data self) as [b|]; simpl; [|intros [= <-]; constructor].
  destruct (imdecode b) as [image| |e]; simpl;
    [| |intros [= <-]; constructor];
    (destruct (model self) as [m|]; simpl; [|intros [= <-]; constructor]).
  - destruct (predict _ _ _ _ _) as [r m']; simpl.
    intros [= <-]. repeat constructor.
  - destruct (predict_none _ _ _ _) as [e|[r m']]; simpl;
      intros [= <-]; repeat constructor; auto.
Qed.


(** ** The entry point *)

Lemma main_eq fuel argv ui fs :
  main fuel argv ui fs =
  after_trace [ELog (argv_model argv)]
    (inference fuel (fresh (argv_model argv)) ui fs).
Proof.
  unfold main, init, argv_model, fresh. run_script.
  destruct (inference fuel _ ui fs); reflexivity.
Qed.

(** [configure] only sets [self.model]. *)
Lemma configure_done self ui fs self' fs' t :
  configure self ui fs = Done self' fs' t ->
  exists m, self' = set_model (Some m) self.
Proof.
  destruct (select_option_available (ui_model ui)) as (name & Hsel & Hin).
  destruct (dict_lookup_available name Hin) as [file_id Hid].
  rewrite (configure_eq _ _ _ _ _ Hsel Hid).
  cbv beta iota delta [bind load_model emit get_fs ret raise after_trace].
  destruct (download_from_gdrive file_id name fs) as [[] fs1 t1|e fs1 t1|];
    [|discriminate..].
  destruct (YOLO (model_file name) fs1) as [e|m]; [discriminate|].
  intros [= <- _ _]. eauto.
Qed.

(** The model [configure] loads is the one chosen in the "Model" select
    box: the file [models/<name>.pt] of that name. Neither
    [self.model_path] nor [self.temp_dict] is read. *)
Lemma configure_loads_selected self ui fs t p :
  trace_of (configure self ui fs) = Some t ->
  In (ELoadModel p) t ->
  exists name, select_option available_models (ui_model ui) = Some name /\
               p = model_file name.
Proof.
  destruct (select_option_available (ui_model ui)) as (name & Hsel & Hin).
  destruct (dict_lookup_available name Hin) as [file_id Hid].
  rewrite (configure_eq _ _ _ _ _ Hsel Hid).
  intros Ht Hp. exists name. split; [exact Hsel|].
  revert Ht.
  cbv beta iota delta [bind load_model emit get_fs ret raise after_trace].
  destruct (download_ends file_id name fs)
    as [(fs1 & t1 & Hdl & _ & Hev & _)|(Hdl & _)]; rewrite Hdl.
  - pose proof (download_events_no_load t1 p Hev) as Hno.
    destruct (YOLO (model_file name) fs1) as [e|m]; cbn [trace_of];
      intros [= <-]; simpl in Hp;
      (destruct Hp as [Hp|Hp]; [discriminate Hp|]);
      apply in_app_or in Hp; (destruct Hp as [Hp|Hp]; [contradiction|]);
      simpl in Hp; repeat (destruct Hp as [Hp|Hp]; [congruence|]);
      contradiction.
  - cbn [trace_of]. intros [= <-]. simpl in Hp.
    destruct Hp as [Hp|[]]. discriminate Hp.
Qed.

(** No method assigns [selected_ind]: at the Start button it is still the
    empty list of [__init__], and this list is what every call of the
    model gets as [classes]. *)
Lemma selected_ind_stays_empty argv ui fs self4 fs4 t4 :
  configure (prepared (fresh (argv_model argv)) ui) ui fs = Done self4 fs4 t4 ->
  selected_ind self4 = [].
Proof.
  intros Hcfg. destruct (configure_done _ _ _ _ _ _ Hcfg) as [m ->].
  unfold prepared.
  destruct (ui_source ui); [reflexivity| |];
    [destruct (ui_video_file ui)|destruct (ui_image_file ui)]; reflexivity.
Qed.

(** C10. The source is "image", no image is uploaded and Start is
    pressed. [self.image_data] is set by [source_upload] alone, and only
    when a file is uploaded; here [__init__] has not set it, nothing is
    uploaded, and [configure], which has loaded the model, does not touch
    it. The Start branch then reads it and the script ends with
    [AttributeError], right after the Start button, before any call of
    the model. *)
Theorem image_start_without_upload fuel argv ui fs self4 fs4 t4 :
  ui_source ui = Image ->
  ui_image_file ui = None ->
  ui_start ui = true ->
  configure (prepared (fresh (argv_model argv)) ui) ui (uploaded ui fs)
    = Done self4 fs4 t4 ->
  main fuel argv ui fs
    = Raised (AttributeError "image_data") fs4
        ([ELog (argv_model argv)] ++ page_trace ui ++ t4 ++ [EWidget "Start"])
  /\ image_data self4 = None
  /\ (forall ui', image_data (prepared (fresh (argv_model argv)) ui')
                  = match ui_source ui' with
                    | Image => ui_image_file ui'
                    | _ => None
                    end).
Proof.
  intros Hsrc Himg Hstart Hcfg.
  destruct (configure_done _ _ _ _ _ _ Hcfg) as [m ->].
  assert (Hprep : forall ui', image_data (prepared (fresh (argv_model argv)) ui')
                  = match ui_source ui' with
                    | Image => ui_image_file ui'
                    | _ => None
                    end).
  { intros ui'. unfold prepared.
    destruct (ui_source ui'); [reflexivity| |];
      [destruct (ui_video_file ui')|destruct (ui_image_file ui')]; reflexivity. }
  assert (Hnone : image_data (prepared (fresh (argv_model argv)) ui) = None).
  { rewrite Hprep, Hsrc. exact Himg. }
  assert (Hsource : source (prepared (fresh (argv_model argv)) ui) = Some Image).
  { unfold prepared. rewrite Hsrc, Himg. simpl. rewrite Hsrc. reflexivity. }
  split; [|split; [exact Hnone|exact Hprep]].
  rewrite main_eq, inference_eq. unfold bind at 1. rewrite Hcfg.
  unfold button, start_pressed, run_image. rewrite Hstart.
  cbn [source image_data set_model]. rewrite Hsource, Hnone.
  run_script. rewrite <- ?app_assoc. reflexivity.
Qed.

(** ** The whole script: what is opened is released *)

Lemma bind_trace {A B} (m : M A) (f : A -> M B) fs t :
  trace_of (bind m f fs) = Some t ->
  (exists e fs1, m fs = Raised e fs1 t) \/
  (exists a fs1 t1 t2,
     m fs = Done a fs1 t1 /\ trace_of (f a fs1) = Some t2 /\ t = t1 ++ t2).
Proof.
  unfold bind. destruct (m fs) as [a fs1 t1|e fs1 t1|]; [| |discriminate].
  - destruct (f a fs1) as [b fs2 t2|e fs2 t2|] eqn:Hf; [| |discriminate];
      intros [= <-]; right; exists a, fs1, t1, t2; rewrite Hf; auto.
  - intros [= <-]. left. eauto.
Qed.

Lemma trace_of_after_trace {A} (t0 : list Event) (o : Outcome A) t :
  trace_of (after_trace t0 o) = Some t ->
  exists t', trace_of o = Some t' /\ t = t0 ++ t'.
Proof. destruct o; simpl; [| |discriminate]; intros [= <-]; eauto. Qed.

Lemma stream_loop_opens_nothing fuel : forall self stop cap fs m t,
  model self = Some m ->
  trace_of (stream_loop fuel self stop cap fs) = Some t ->
  count is_cap_open t = 0%nat.
Proof.
  induction fuel as [|fuel IH]; intros self stop cap fs m t Hm;
    (destruct (cap_opened cap) eqn:Hopen;
      [|rewrite stream_loop_closed by exact Hopen; intros [= <-]; reflexivity]).
  - simpl. rewrite Hopen. discriminate.
  - rewrite (stream_loop_step _ _ _ _ _ _ Hm Hopen). cbv zeta.
    destruct (cap_frames cap 0) as [f| |]; [|intros [= <-]; reflexivity..].
    destruct stop.
    + intros [= <-]. unfold call_event.
      destruct (tracking_on self); reflexivity.
    + intros Ht. apply trace_of_after_trace in Ht.
      destruct Ht as (t' & Ht' & ->).
      assert (Hz : count is_cap_open t' = 0%nat)
        by (eapply IH; [|exact Ht']; reflexivity).
      rewrite count_app, Hz.
      unfold pass_trace, call_event. destruct (tracking_on self); reflexivity.
Qed.

(** From the Start button on, with the model loaded: as many releases as
    captures opened, and at most one capture. *)
Lemma start_pressed_balanced fuel self ui fs m t :
  model self = Some m ->
  trace_of (start_pressed fuel self ui fs) = Some t ->
  count is_release t = count is_cap_open t /\ (count is_cap_open t <= 1)%nat.
Proof.
  intros Hm Ht.
  destruct (is_stream (source self)) eqn:Hs.
  - rewrite (start_pressed_stream _ _ _ _ Hs) in Ht. cbv zeta in Ht.
    set (cap := VideoCapture (vid_file_name self) fs) in *.
    pose proof (stream_loop_ends_well fuel self (ui_stop ui) cap fs m Hm) as Hinv.
    pose proof (stream_loop_opens_nothing fuel self (ui_stop ui) cap fs m) as Hno.
    assert (Hopen : count is_release (open_trace self cap) = 0%nat
                    /\ count is_cap_open (open_trace self cap) = 1%nat).
    { unfold open_trace. destruct (cap_opened cap); split; reflexivity. }
    destruct Hopen as [Ho1 Ho2].
    apply trace_of_after_trace in Ht. destruct Ht as (t' & Ht' & ->).
    rewrite !count_app, Ho1, Ho2.
    destruct (stream_loop fuel self (ui_stop ui) cap fs)
      as [[s' c'] fs' t0|e fs' t0|];
      cbn [finish_stream trace_of loop_ends_well] in *; [| |discriminate Ht'].
    + destruct Hinv as (_ & Hrel & _). injection Ht' as <-.
      rewrite !count_app, Hrel, (Hno _ Hm eq_refl). simpl. lia.
    + destruct Hinv as (_ & _ & Hrel & _). injection Ht' as <-.
      rewrite Hrel, (Hno _ Hm eq_refl). simpl. lia.
  - revert Ht.
    destruct (source_cases self) as [Hs'|[Hs'|Hs']];
      [rewrite Hs' in Hs; discriminate Hs| |].
    + rewrite (start_pressed_image _ _ _ _ _ Hs' Hm).
      destruct (image_data self) as [b|]; [|intros [= <-]; simpl; lia].
      destruct (imdecode b) as [image| |e]; cbv zeta;
        [| |intros [= <-]; simpl; lia].
      * intros [= <-]. simpl. lia.
      * destruct (predict_none _ _ _ _) as [e|r]; intros [= <-]; simpl; lia.
    + rewrite (start_pressed_no_source _ _ _ _ Hs').
      intros [= <-]. simpl. lia.
Qed.

Lemma page_trace_no_capture ui :
  count is_release (page_trace ui) = 0%nat /\
  count is_cap_open (page_trace ui) = 0%nat.
Proof. unfold page_trace. destruct (ui_source ui); split; reflexivity. Qed.

Lemma configure_no_capture self ui fs t :
  trace_of (configure self ui fs) = Some t ->
  count is_release t = 0%nat /\ count is_cap_open t = 0%nat.
Proof.
  destruct (select_option_available (ui_model ui)) as (name & Hsel & Hin).
  destruct (dict_lookup_available name Hin) as [file_id Hid].
  rewrite (configure_eq _ _ _ _ _ Hsel Hid).
  cbv beta iota delta [bind load_model emit get_fs ret raise after_trace].
  destruct (download_ends file_id name fs)
    as [(fs1 & t1 & Hdl & _ & Hev & _)|(Hdl & _)]; rewrite Hdl.
  - destruct (download_events_quiet t1 Hev) as [Hr Ho].
    destruct (YOLO (model_file name) fs1) as [e|m]; cbn [trace_of];
      intros [= <-]; cbn [count is_release is_cap_open];
      rewrite !count_app, Hr, Ho; split; reflexivity.
  - cbn [trace_of]. intros [= <-]. split; reflexivity.
Qed.

(** X7. Any run of the script that ends, whatever the arguments, the
    widgets, the disk and the devices: [cv2.VideoCapture] is called at
    most once, and [cap.release()] as many times. *)
Lemma main_releases_what_it_opens fuel argv ui fs t :
  trace_of (main fuel argv ui fs) = Some t ->
  count is_release t = count is_cap_open t /\ (count is_cap_open t <= 1)%nat.
Proof.
  rewrite main_eq, inference_eq. intros Ht.
  apply trace_of_after_trace in Ht. destruct Ht as (t1 & Ht1 & ->).
  apply trace_of_after_trace in Ht1. destruct Ht1 as (t2 & Ht2 & ->).
  destruct (page_trace_no_capture ui) as [Hp1 Hp2].
  rewrite !count_app, Hp1, Hp2. cbn [count is_release is_cap_open].
  apply bind_trace in Ht2.
  destruct Ht2 as [(e & fs1 & Hcfg)|(self4 & fs4 & t4 & t5 & Hcfg & Ht5 & ->)].
  - assert (Hc : count is_release t2 = 0%nat /\ count is_cap_open t2 = 0%nat)
      by (eapply configure_no_capture; rewrite Hcfg; reflexivity).
    destruct Hc as [-> ->]. simpl. lia.
  - assert (Hc : count is_release t4 = 0%nat /\ count is_cap_open t4 = 0%nat)
      by (eapply configure_no_capture; rewrite Hcfg; reflexivity).
    destruct Hc as [Hc1 Hc2].
    destruct (configure_done _ _ _ _ _ _ Hcfg) as [m Hself].
    rewrite !count_app, Hc1, Hc2.
    revert Ht5. unfold button. run_script.
    destruct (ui_start ui).
    + destruct (start_pressed fuel self4 ui fs4) as [a fs5 t6|e fs5 t6|] eqn:Hsp;
        [| |discriminate]; intros [= <-];
        (destruct (start_pressed_balanced fuel self4 ui fs4 m t6) as [Hb1 Hb2];
          [rewrite Hself; reflexivity|rewrite Hsp; reflexivity|]);
        cbn [count is_release is_cap_open]; simpl; lia.
    + intros [= <-]. simpl. lia.
Qed.

(** * More of the script *)

(** ** [download_from_gdrive] *)


(** X2. The artifact is not on disk when [download_from_gdrive] is
    called. Unless [os.makedirs] raises on a regular file [models], the
    call returns, and after it the disk is the one the command left, but
    for the artifact: it is kept, as it is, when it has more than 10000
    bytes, and it is not there otherwise (a file of exactly 10000 bytes
    is removed). No other file is touched, and the exit status of the
    command plays no part. *)
Theorem download_keeps_by_size file_id model_name fs :
  files fs !! model_file model_name = None ->
  match files fs !! "models" with
  | Some _ =>
      download_from_gdrive file_id model_name fs
      = Raised (FileExistsError "models") fs []
  | None =>
      exists fs' t,
        download_from_gdrive file_id model_name fs = Done tt fs' t /\
        files fs' !! model_file model_name =
          match files (fetched file_id model_name fs) !! model_file model_name
          with
          | Some b => if (10000 <? Z.of_nat (length b))%Z then Some b else None
          | None => None
          end /\
        forall p, p <> model_file model_name ->
                  files fs' !! p = files (fetched file_id model_name fs) !! p
  end.
Proof.
  intros Hmiss.
  destruct (files fs !! "models") as [d|] eqn:Hdir;
    [apply download_blocked; [exact Hmiss|rewrite Hdir; eauto]|].
  rewrite download_missing by assumption. cbv zeta.
  set (fs1 := fetched file_id model_name fs).
  destruct (large_enough (model_file model_name) fs1) as [n|] eqn:Hn.
  - apply large_enough_Some in Hn. destruct Hn as (b & Hb & -> & Hlt).
    exists fs1. eexists. split; [reflexivity|]. split; [|reflexivity].
    rewrite Hb. apply Z.ltb_lt in Hlt. rewrite Hlt. reflexivity.
  - apply large_enough_None in Hn.
    destruct (os_path_exists (model_file model_name) fs1) eqn:Hex.
    + exists (fs_remove (model_file model_name) fs1). eexists.
      split; [reflexivity|]. split.
      * unfold fs_remove. cbn [files]. rewrite lookup_delete_eq.
        destruct Hn as [Hnone|(b & Hb & Hle)]; [rewrite Hnone; reflexivity|].
        rewrite Hb. apply Z.ltb_ge in Hle. rewrite Hle. reflexivity.
      * intros p Hp. unfold fs_remove. cbn [files].
        apply lookup_delete_ne. congruence.
    + apply os_path_exists_false in Hex.
      exists fs1. eexists. split; [reflexivity|]. split; [|reflexivity].
      rewrite Hex. reflexivity.
Qed.

(** ** [configure] *)

(** X3. [configure] ends in one of three ways, whatever the choice in
    the "Model" select box. [YOLO] has loaded [models/<name>.pt] for the
    chosen name from the disk [download_from_gdrive] left, and the result
    is [self] with this model and every other attribute as it was; or
    [YOLO] has raised, and this is the exception of [configure]; or the
    artifact was missing with [models] a regular file, [os.makedirs] has
    raised [FileExistsError] out of [download_from_gdrive], and no load
    was tried. The lookup [GDRIVE_MODELS[selected_model]] never fails. *)
Theorem configure_ends_in_the_loader self ui fs :
  exists name,
    select_option available_models (ui_model ui) = Some name /\
    In name available_models /\
    match configure self ui fs with
    | Done self' fs' t =>
        exists m, YOLO (model_file name) fs' = inr m /\
                  self' = set_model (Some m) self /\
                  In (ELoadModel (model_file name)) t
    | Raised e fs' t =>
        (YOLO (model_file name) fs' = inl e /\
         In (ELoadModel (model_file name)) t) \/
        (e = FileExistsError "models" /\ fs' = fs /\ t = [EWidget "Model"] /\
         files fs !! model_file name = None /\
         is_Some (files fs !! "models"))
    | OutOfFuel => False
    end.
Proof.
  destruct (select_option_available (ui_model ui)) as (name & Hsel & Hin).
  destruct (dict_lookup_available name Hin) as [file_id Hid].
  exists name. split; [exact Hsel|]. split; [exact Hin|].
  rewrite (configure_eq _ _ _ _ _ Hsel Hid).
  cbv beta iota delta [bind load_model emit get_fs ret raise after_trace].
  destruct (download_ends file_id name fs)
    as [(fs1 & t1 & Hdl & _)|(Hdl & Hmiss & Hdir)]; rewrite Hdl.
  - destruct (YOLO (model_file name) fs1) as [e|m] eqn:Hy.
    + left. split; [exact Hy|].
      cbn [app]. right. apply in_or_app. right. apply in_eq.
    + exists m. split; [exact Hy|]. split; [reflexivity|].
      cbn [app]. right. apply in_or_app. right. apply in_eq.
  - right. auto.
Qed.

(** ** The script up to the Start button *)

Lemma setup_events_are_quiet (t : list Event) :
  forallb is_setup_event t = true ->
  emissions t = [] /\ count is_model_call t = 0%nat /\
  count is_cap_open t = 0%nat /\ count is_release t = 0%nat.
Proof.
  induction t as [|e t IH]; intros H; [repeat split|].
  cbn [forallb] in H. apply andb_prop in H. destruct H as [He Ht].
  destruct (IH Ht) as (H1 & H2 & H3 & H4).
  destruct e; try discriminate He; cbn [emissions count is_model_call
    is_cap_open is_release]; rewrite ?H1, ?H2, ?H3, ?H4; repeat split.
Qed.

Lemma page_trace_setup ui : forallb is_setup_event (page_trace ui) = true.
Proof. unfold page_trace. destruct (ui_source ui); reflexivity. Qed.

Lemma download_events_setup (t : list Event) :
  forallb is_download_event t = true -> forallb is_setup_event t = true.
Proof.
  induction t as [|e t IH]; intros H; [reflexivity|].
  cbn [forallb] in H. apply andb_prop in H. destruct H as [He Ht].
  cbn [forallb]. rewrite (IH Ht).
  destruct e; try discriminate He; reflexivity.
Qed.

Lemma configure_trace_setup self ui fs t :
  trace_of (configure self ui fs) = Some t ->
  forallb is_setup_event t = true.
Proof.
  destruct (select_option_available (ui_model ui)) as (name & Hsel & Hin).
  destruct (dict_lookup_available name Hin) as [file_id Hid].
  rewrite (configure_eq _ _ _ _ _ Hsel Hid).
  cbv beta iota delta [bind load_model emit get_fs ret raise after_trace].
  destruct (download_ends file_id name fs)
    as [(fs1 & t1 & Hdl & _ & Hev & _)|(Hdl & _)]; rewrite Hdl.
  - pose proof (download_events_setup t1 Hev) as Hq.
    destruct (YOLO (model_file name) fs1) as [e|m]; cbn [trace_of];
      intros [= <-]; cbn [app forallb is_setup_event andb];
      rewrite forallb_app, Hq; reflexivity.
  - cbn [trace_of]. intros [= <-]. reflexivity.
Qed.

Lemma configure_ends_well_aux self ui fs :
  configure self ui fs = OutOfFuel -> False.
Proof.
  destruct (select_option_available (ui_model ui)) as (name & Hsel & Hin).
  destruct (dict_lookup_available name Hin) as [file_id Hid].
  rewrite (configure_eq _ _ _ _ _ Hsel Hid).
  cbv beta iota delta [bind load_model emit get_fs ret raise after_trace].
  destruct (download_ends file_id name fs)
    as [(fs1 & t1 & Hdl & _)|(Hdl & _)]; rewrite Hdl; [|discriminate].
  destruct (YOLO (model_file name) fs1); discriminate.
Qed.

(** The script is: the log line and the page, [configure], the Start
    button, and the body of the Start branch when it is pressed. *)
Lemma main_cases fuel argv ui fs :
  let pre := [ELog (argv_model argv)] ++ page_trace ui in
  main fuel argv ui fs =
  match configure (prepared (fresh (argv_model argv)) ui) ui (uploaded ui fs) with
  | Done self4 fs4 t4 =>
      if ui_start ui then
        after_trace (pre ++ t4 ++ [EWidget "Start"])
          (start_pressed fuel self4 ui fs4)
      else Done self4 fs4 (pre ++ t4 ++ [EWidget "Start"])
  | Raised e fs4 t4 => Raised e fs4 (pre ++ t4)
  | OutOfFuel => OutOfFuel
  end.
Proof.
  cbv zeta. rewrite main_eq, inference_eq. unfold bind at 1.
  destruct (configure _ ui (uploaded ui fs)) as [self4 fs4 t4|e fs4 t4|];
    [|reflexivity..].
  cbv beta iota delta [bind button emit ret].
  destruct (ui_start ui).
  - destruct (start_pressed fuel self4 ui fs4) as [a fs5 t5|e fs5 t5|];
      cbn [after_trace]; repeat rewrite <- app_assoc; cbn [app]; reflexivity.
  - cbn [after_trace]. repeat rewrite <- app_assoc. cbn [app].
    rewrite ?app_nil_r. reflexivity.
Qed.

(** The upload is the one file [source_upload] writes. *)
Lemma uploaded_keeps_others ui fs p :
  p <> "uploaded_video.mp4" -> files (uploaded ui fs) !! p = files fs !! p.
Proof.
  intros Hp. unfold uploaded.
  destruct (ui_source ui); try reflexivity.
  destruct (ui_video_file ui) as [g|]; [|reflexivity].
  unfold fs_write. cbn [files]. apply lookup_insert_ne. congruence.
Qed.

Lemma model_file_is_not_the_upload name :
  model_file name <> "uploaded_video.mp4".
Proof. unfold model_file. simpl. discriminate. Qed.

(** X4. A script run in which Start is not pressed still resolves the
    model chosen in the select box and, unless [os.makedirs] raises on a
    regular file [models], loads it, and does nothing else: no capture
    is opened, the model is not called, no picture is shown. The fuel of
    the loop plays no part. *)
Theorem without_start_only_the_model_is_loaded fuel argv ui fs :
  ui_start ui = false ->
  exists name t,
    select_option available_models (ui_model ui) = Some name /\
    main fuel argv ui fs = main 0 argv ui fs /\
    trace_of (main fuel argv ui fs) = Some t /\
    (is_Some (files fs !! model_file name) \/ files fs !! "models" = None ->
     In (ELoadModel (model_file name)) t) /\
    forallb is_setup_event t = true /\
    emissions t = [] /\
    count is_model_call t = 0%nat /\
    count is_cap_open t = 0%nat.
Proof.
  intros Hstart.
  set (self0 := prepared (fresh (argv_model argv)) ui).
  destruct (select_option_available (ui_model ui)) as (name & Hsel & Hin).
  destruct (dict_lookup_available name Hin) as [file_id Hid].
  pose proof (configure_trace_setup self0 ui (uploaded ui fs)) as Hq.
  assert (Hload : forall t,
    trace_of (configure self0 ui (uploaded ui fs)) = Some t ->
    is_Some (files fs !! model_file name) \/ files fs !! "models" = None ->
    In (ELoadModel (model_file name)) t).
  { rewrite (configure_eq _ _ _ _ _ Hsel Hid).
    cbv beta iota delta [bind load_model emit get_fs ret raise after_trace].
    destruct (download_ends file_id name (uploaded ui fs))
      as [(fs1 & t1 & Hdl & _)|(Hdl & Hmiss & Hdir)]; rewrite Hdl.
    - destruct (YOLO (model_file name) fs1) as [e|m]; cbn [trace_of];
        intros t [= <-] _; cbn [app]; right; apply in_or_app; right;
        apply in_eq.
    - intros t _ Hfree. exfalso.
      rewrite uploaded_keeps_others in Hmiss
        by apply model_file_is_not_the_upload.
      rewrite uploaded_keeps_others in Hdir by discriminate.
      destruct Hfree as [Hthere|Hnone].
      + rewrite Hmiss in Hthere. destruct Hthere as [b Hb]. discriminate Hb.
      + rewrite Hnone in Hdir. destruct Hdir as [d Hd]. discriminate Hd. }
  assert (Hsame : main fuel argv ui fs = main 0 argv ui fs).
  { rewrite !main_cases. cbv zeta. fold self0. rewrite Hstart. reflexivity. }
  exists name.
  rewrite Hsame. rewrite main_cases. cbv zeta. fold self0. rewrite Hstart.
  destruct (configure self0 ui (uploaded ui fs)) as [self4 fs4 t4|e fs4 t4|] eqn:Hc.
  - specialize (Hq t4 eq_refl). specialize (Hload t4 eq_refl).
    eexists. split; [exact Hsel|]. split; [reflexivity|].
    split; [reflexivity|].
    assert (Hall : forallb is_setup_event
                     (([ELog (argv_model argv)] ++ page_trace ui) ++
                      t4 ++ [EWidget "Start"]) = true).
    { rewrite !forallb_app, page_trace_setup, Hq. reflexivity. }
    split.
    { intros Hfree. apply in_or_app. right. apply in_or_app. left.
      exact (Hload Hfree). }
    split; [exact Hall|].
    destruct (setup_events_are_quiet _ Hall) as (H1 & H2 & H3 & _).
    auto.
  - specialize (Hq t4 eq_refl). specialize (Hload t4 eq_refl).
    eexists. split; [exact Hsel|]. split; [reflexivity|].
    split; [reflexivity|].
    assert (Hall : forallb is_setup_event
                     (([ELog (argv_model argv)] ++ page_trace ui) ++ t4) = true).
    { rewrite !forallb_app, page_trace_setup, Hq. reflexivity. }
    split.
    { intros Hfree. apply in_or_app. right. exact (Hload Hfree). }
    split; [exact Hall|].
    destruct (setup_events_are_quiet _ Hall) as (H1 & H2 & H3 & _).
    auto.
  - exfalso.
    exact (configure_ends_well_aux self0 ui (uploaded ui fs) Hc).
Qed.

(** ** The Start branch at its edges *)

(** X5. A video or webcam source that gives no first frame. When the
    capture does not open, the error "Could not open video/webcam." is
    shown, the loop is not entered, and the capture is released all the
    same; when it opens and the first read fails, the warning is shown
    and the capture released. In both cases the run returns normally with
    [self] and the disk as they were, the model is not called, and the
    Stop button makes no difference. *)
Theorem source_without_a_frame fuel self ui fs :
  is_stream (source self) = true ->
  let cap := VideoCapture (vid_file_name self) fs in
  (cap_opened cap = false ->
   start_pressed fuel self ui fs =
   Done self fs
     [EWidget "Stop"; ECapOpen (vid_file_name self);
      EError "Could not open video/webcam.";
      ECapRelease; EDestroyAllWindows])
  /\ (cap_opened cap = true ->
      is_frame (cap_frames cap 0%nat) = false ->
      start_pressed (S fuel) self ui fs =
      Done self fs
        [EWidget "Stop"; ECapOpen (vid_file_name self);
         ECapRead false; EWarning "Failed to read frame.";
         ECapRelease; EDestroyAllWindows]).
Proof.
  intros Hs cap. split.
  - intros Hclosed.
    rewrite (start_pressed_stream _ _ _ _ Hs). cbv zeta. fold cap.
    rewrite stream_loop_closed by exact Hclosed.
    unfold open_trace. rewrite Hclosed. reflexivity.
  - intros Hopen Hbad.
    rewrite (start_pressed_stream _ _ _ _ Hs). cbv zeta. fold cap.
    cbn [stream_loop]. rewrite Hopen. unfold bind.
    rewrite loop_body_bad_read by exact Hbad.
    unfold open_trace. rewrite Hopen. reflexivity.
Qed.

(** X6. A camera that is open and has a frame at every read, the model
    loaded, the Stop button not pressed: the Start branch does not come
    to an end, whatever the number of passes allowed. The loop has no
    way out but a failed read or the Stop button. *)
Theorem live_camera_run_never_returns fuel self ui fs m :
  is_stream (source self) = true ->
  model self = Some m ->
  ui_stop ui = false ->
  cap_opened (VideoCapture (vid_file_name self) fs) = true ->
  (forall k,
     is_frame (cap_frames (VideoCapture (vid_file_name self) fs) k) = true) ->
  start_pressed fuel self ui fs = OutOfFuel.
Proof.
  intros Hs Hm Hstop Hopen Hall.
  rewrite (start_pressed_stream _ _ _ _ Hs). cbv zeta.
  rewrite Hstop, (stream_loop_runs_on fuel _ _ fs m Hm Hopen Hall).
  reflexivity.
Qed.

(** ** From the widgets to the calls *)

(** What [sidebar] and [source_upload] leave in [self]. *)
Lemma prepared_fields a ui :
  source (prepared (fresh a) ui) = Some (ui_source ui) /\
  enable_trk (prepared (fresh a) ui) = Some (ui_tracking ui) /\
  conf (prepared (fresh a) ui) = ui_conf_value ui /\
  iou (prepared (fresh a) ui) = ui_iou_value ui /\
  selected_ind (prepared (fresh a) ui) = [] /\
  vid_file_name (prepared (fresh a) ui) = capture_name ui /\
  model (prepared (fresh a) ui) = None /\
  image_data (prepared (fresh a) ui)
  = match ui_source ui with Image => ui_image_file ui | _ => None end.
Proof.
  unfold prepared, after_sidebar, capture_name, ui_conf_value, ui_iou_value.
  destruct ui as [src trk c i vf imf mdl st sp]; cbn [ui_source ui_tracking
    ui_conf ui_iou ui_video_file ui_image_file].
  destruct src; [|destruct vf|destruct imf]; repeat split; reflexivity.
Qed.

Lemma start_pressed_calls fuel self ui fs m t :
  model self = Some m ->
  trace_of (start_pressed fuel self ui fs) = Some t ->
  Forall (call_ok (is_stream (source self) && tracking_on self) self) t.
Proof.
  intros Hm Ht.
  destruct (is_stream (source self)) eqn:Hs; cbn [andb].
  - rewrite (start_pressed_stream _ _ _ _ Hs) in Ht. cbv zeta in Ht.
    set (cap := VideoCapture (vid_file_name self) fs) in *.
    pose proof (stream_loop_ends_well fuel self (ui_stop ui) cap fs m Hm) as Hinv.
    assert (Ho : Forall (call_ok (tracking_on self) self) (open_trace self cap)).
    { unfold open_trace. destruct (cap_opened cap); repeat constructor. }
    apply trace_of_after_trace in Ht. destruct Ht as (t' & Ht' & ->).
    apply Forall_app. split; [exact Ho|].
    destruct (stream_loop fuel self (ui_stop ui) cap fs)
      as [[s' c'] fs' t0|e fs' t0|];
      cbn [finish_stream trace_of loop_ends_well] in *; [| |discriminate Ht'].
    + destruct Hinv as (_ & _ & Hall & _). injection Ht' as <-.
      apply Forall_app. split; [exact Hall|repeat constructor].
    + destruct Hinv as (_ & _ & _ & Hall & _). injection Ht' as <-. exact Hall.
  - destruct (source self) as [[| |]|] eqn:Hsrc; try discriminate Hs.
    + eapply start_pressed_image_calls; eauto.
    + revert Ht. unfold start_pressed. rewrite Hsrc. run_script.
      intros [= <-]. repeat constructor.
Qed.

Lemma call_ok_from_ui a ui m (e : Event) :
  let self4 := set_model (Some m) (prepared (fresh a) ui) in
  call_ok (is_stream (source self4) && tracking_on self4) self4 e ->
  call_from_ui ui e.
Proof.
  cbv zeta.
  destruct (prepared_fields a ui) as (Hs & Htrk & Hc & Hi & Hsel & _).
  unfold call_ok, call_event, tracking_on.
  cbn [source enable_trk conf iou selected_ind set_model].
  rewrite Hs, Htrk, Hc, Hi, Hsel.
  destruct e; try (intros _; exact I);
    destruct (ui_source ui) eqn:Hsrc, (ui_tracking ui) eqn:Hflag;
    cbn [is_stream andb];
    first [ intros [= -> -> ->]
          | intros (Htrk' & Himg' & -> & -> & ->);
            try discriminate Htrk'; try discriminate Himg' ];
    cbn [call_from_ui]; rewrite ?Hsrc, ?Hflag;
    repeat split; auto; discriminate.
Qed.

Lemma setup_events_from_ui ui name (t : list Event) :
  forallb is_setup_event t = true ->
  Forall (call_from_ui ui) t /\ Forall (opens_only name) t.
Proof.
  induction t as [|e t IH]; intros H; [split; constructor|].
  cbn [forallb] in H. apply andb_prop in H. destruct H as [He Ht].
  destruct (IH Ht) as [H1 H2].
  destruct e; try discriminate He; split; constructor; auto; exact I.
Qed.

(** X8. Every call of the model in a run of the script is made with the
    values of the two sliders of that run (0.25 and 0.45 when they are
    not moved) and with the empty class list of [__init__]; it is
    [track] with [persist=True] only when the source is not "image" and
    "Enable Tracking" is "Yes", and the plain call otherwise. *)
Theorem model_calls_take_the_widget_values fuel argv ui fs t :
  trace_of (main fuel argv ui fs) = Some t ->
  Forall (call_from_ui ui) t.
Proof.
  rewrite main_cases. cbv zeta.
  set (self0 := prepared (fresh (argv_model argv)) ui).
  pose proof (configure_trace_setup self0 ui (uploaded ui fs)) as Hq.
  destruct (configure self0 ui (uploaded ui fs)) as [self4 fs4 t4|e fs4 t4|] eqn:Hc;
    [| |discriminate].
  - specialize (Hq t4 eq_refl).
    assert (Hpre : Forall (call_from_ui ui)
                     (([ELog (argv_model argv)] ++ page_trace ui) ++
                      t4 ++ [EWidget "Start"])).
    { apply (setup_events_from_ui ui VNone).
      rewrite !forallb_app, page_trace_setup, Hq. reflexivity. }
    destruct (ui_start ui).
    + intros Ht. apply trace_of_after_trace in Ht.
      destruct Ht as (t5 & Ht5 & ->).
      apply Forall_app. split; [exact Hpre|].
      destruct (configure_done _ _ _ _ _ _ Hc) as [m ->].
      pose proof (start_pressed_calls fuel (set_model (Some m) self0) ui fs4 m t5
                    eq_refl Ht5) as Hcalls.
      eapply Forall_impl; [exact Hcalls|].
      intros e. apply call_ok_from_ui.
    + intros [= <-]. exact Hpre.
  - specialize (Hq t4 eq_refl). cbn [trace_of]. intros [= <-].
    apply (setup_events_from_ui ui VNone).
    cbn [forallb is_setup_event andb]. rewrite forallb_app, Hq.
    destruct (ui_source ui); reflexivity.
Qed.

(** ** The capture and the disk *)

Lemma no_open_opens_only name (t : list Event) :
  count is_cap_open t = 0%nat -> Forall (opens_only name) t.
Proof.
  induction t as [|e t IH]; intros H; [constructor|].
  cbn [count] in H.
  destruct e; cbn [is_cap_open] in H; try discriminate H;
    constructor; try exact I; apply IH; exact H.
Qed.

Lemma opened_is_counted name (t : list Event) :
  In (ECapOpen name) t -> (1 <= count is_cap_open t)%nat.
Proof.
  induction t as [|e t IH]; intros H; [contradiction|].
  destruct H as [->|H]; cbn [count is_cap_open]; [lia|].
  specialize (IH H). lia.
Qed.

Lemma start_pressed_opens fuel self ui fs m t :
  model self = Some m ->
  trace_of (start_pressed fuel self ui fs) = Some t ->
  Forall (opens_only (vid_file_name self)) t /\
  (is_stream (source self) = false -> count is_cap_open t = 0%nat).
Proof.
  intros Hm Ht.
  destruct (is_stream (source self)) eqn:Hs.
  - split; [|discriminate].
    rewrite (start_pressed_stream _ _ _ _ Hs) in Ht. cbv zeta in Ht.
    set (cap := VideoCapture (vid_file_name self) fs) in *.
    pose proof (stream_loop_opens_nothing fuel self (ui_stop ui) cap fs m) as Hno.
    apply trace_of_after_trace in Ht. destruct Ht as (t' & Ht' & ->).
    apply Forall_app. split.
    { unfold open_trace. destruct (cap_opened cap); repeat constructor. }
    destruct (stream_loop fuel self (ui_stop ui) cap fs)
      as [[s' c'] fs' t0|e fs' t0|];
      cbn [finish_stream trace_of] in *; [| |discriminate Ht'];
      injection Ht' as <-; specialize (Hno _ Hm eq_refl).
    + apply Forall_app. split; [|repeat constructor].
      apply no_open_opens_only. exact Hno.
    + apply no_open_opens_only. exact Hno.
  - assert (Hz : count is_cap_open t = 0%nat).
    { revert Ht.
      destruct (source_cases self) as [Hs'|[Hs'|Hs']];
        [rewrite Hs' in Hs; discriminate Hs| |].
      + rewrite (start_pressed_image _ _ _ _ _ Hs' Hm).
        destruct (image_data self) as [b|]; [|intros [= <-]; reflexivity].
        destruct (imdecode b) as [image| |e]; cbv zeta;
          [| |intros [= <-]; reflexivity].
        * intros [= <-]. reflexivity.
        * destruct (predict_none _ _ _ _) as [e|r]; intros [= <-]; reflexivity.
      + rewrite (start_pressed_no_source _ _ _ _ Hs').
        intros [= <-]. reflexivity. }
    split; [apply no_open_opens_only; exact Hz|intros _; exact Hz].
Qed.

(** X9. If a run of the script opens a capture, Start was pressed, the
    source is not "image", and the capture is opened on the name
    [source_upload] chose: device 0 for the webcam,
    "uploaded_video.mp4" for an uploaded video, and the empty name for a
    video source with nothing uploaded. *)
Theorem capture_is_opened_on_the_chosen_source fuel argv ui fs t name :
  trace_of (main fuel argv ui fs) = Some t ->
  In (ECapOpen name) t ->
  name = capture_name ui /\ ui_start ui = true /\ ui_source ui <> Image.
Proof.
  rewrite main_cases. cbv zeta.
  set (self0 := prepared (fresh (argv_model argv)) ui).
  pose proof (configure_trace_setup self0 ui (uploaded ui fs)) as Hq.
  destruct (prepared_fields (argv_model argv) ui)
    as (Hsrc & _ & _ & _ & _ & Hname & _).
  fold self0 in Hsrc, Hname.
  assert (Hquiet : forall t4 tail,
    forallb is_setup_event t4 = true ->
    forallb is_setup_event tail = true ->
    ~ In (ECapOpen name)
        (([ELog (argv_model argv)] ++ page_trace ui) ++ t4 ++ tail)).
  { intros t4 tail H4 Htail Hin. apply opened_is_counted in Hin.
    assert (Hall : forallb is_setup_event
                     (([ELog (argv_model argv)] ++ page_trace ui) ++ t4 ++ tail)
                   = true)
      by (rewrite !forallb_app, page_trace_setup, H4, Htail; reflexivity).
    destruct (setup_events_are_quiet _ Hall) as (_ & _ & H3 & _). lia. }
  destruct (configure self0 ui (uploaded ui fs)) as [self4 fs4 t4|e fs4 t4|] eqn:Hc;
    [| |discriminate].
  - specialize (Hq t4 eq_refl).
    destruct (ui_start ui).
    + intros Ht Hin. apply trace_of_after_trace in Ht.
      destruct Ht as (t5 & Ht5 & ->).
      apply in_app_or in Hin. destruct Hin as [Hin|Hin].
      { exfalso. exact (Hquiet t4 [EWidget "Start"] Hq eq_refl Hin). }
      destruct (configure_done _ _ _ _ _ _ Hc) as [m ->].
      destruct (start_pressed_opens fuel (set_model (Some m) self0) ui fs4 m t5
                  eq_refl Ht5) as [Hall Himg].
      cbn [vid_file_name source set_model] in Hall, Himg.
      rewrite Hname in Hall. rewrite Hsrc in Himg.
      split; [|split; [reflexivity|]].
      * rewrite List.Forall_forall in Hall. exact (Hall _ Hin).
      * intros Hi. rewrite Hi in Himg. specialize (Himg eq_refl).
        apply opened_is_counted in Hin. lia.
    + cbn [trace_of]. intros [= <-] Hin. exfalso.
      exact (Hquiet t4 [EWidget "Start"] Hq eq_refl Hin).
  - specialize (Hq t4 eq_refl). cbn [trace_of]. intros Ht Hin. exfalso.
    apply (Hquiet t4 [] Hq eq_refl). rewrite app_nil_r.
    injection Ht as <-. exact Hin.
Qed.

Lemma uploaded_keeps_models ui fs name :
  files (uploaded ui fs) !! model_file name = files fs !! model_file name.
Proof.
  unfold uploaded.
  destruct (ui_source ui); try reflexivity.
  destruct (ui_video_file ui) as [g|]; [|reflexivity].
  unfold fs_write. cbn [files]. apply lookup_insert_ne.
  intros H. symmetry in H. exact (model_file_is_not_the_upload name H).
Qed.

Lemma start_pressed_keeps_disk fuel self ui fs m fs' :
  model self = Some m ->
  disk_of (start_pressed fuel self ui fs) = Some fs' ->
  fs' = fs.
Proof.
  intros Hm.
  destruct (is_stream (source self)) eqn:Hs.
  - rewrite (start_pressed_stream _ _ _ _ Hs). cbv zeta.
    set (cap := VideoCapture (vid_file_name self) fs).
    pose proof (stream_loop_ends_well fuel self (ui_stop ui) cap fs m Hm) as Hinv.
    destruct (stream_loop fuel self (ui_stop ui) cap fs)
      as [[s' c'] fs1 t0|e fs1 t0|];
      cbn [finish_stream after_trace disk_of loop_ends_well] in *;
      [| |discriminate].
    + destruct Hinv as (-> & _). intros [= <-]. reflexivity.
    + destruct Hinv as (_ & -> & _). intros [= <-]. reflexivity.
  - destruct (source_cases self) as [Hs'|[Hs'|Hs']];
      [rewrite Hs' in Hs; discriminate Hs| |].
    + rewrite (start_pressed_image _ _ _ _ _ Hs' Hm).
      destruct (image_data self) as [b|]; [|intros [= <-]; reflexivity].
      destruct (imdecode b) as [image| |e]; cbv zeta;
        [| |intros [= <-]; reflexivity].
      * intros [= <-]. reflexivity.
      * destruct (predict_none _ _ _ _) as [e|r]; intros [= <-]; reflexivity.
    + rewrite (start_pressed_no_source _ _ _ _ Hs').
      intros [= <-]. reflexivity.
Qed.

Lemma stream_loop_runs_no_command fuel : forall self stop cap fs m t,
  model self = Some m ->
  trace_of (stream_loop fuel self stop cap fs) = Some t ->
  count is_fetch t = 0%nat.
Proof.
  induction fuel as [|fuel IH]; intros self stop cap fs m t Hm;
    (destruct (cap_opened cap) eqn:Hopen;
      [|rewrite stream_loop_closed by exact Hopen; intros [= <-]; reflexivity]).
  - simpl. rewrite Hopen. discriminate.
  - rewrite (stream_loop_step _ _ _ _ _ _ Hm Hopen). cbv zeta.
    destruct (cap_frames cap 0) as [f| |]; [|intros [= <-]; reflexivity..].
    destruct stop.
    + intros [= <-]. unfold call_event.
      destruct (tracking_on self); reflexivity.
    + intros Ht. apply trace_of_after_trace in Ht.
      destruct Ht as (t' & Ht' & ->).
      assert (Hz : count is_fetch t' = 0%nat)
        by (eapply IH; [|exact Ht']; reflexivity).
      rewrite count_app, Hz.
      unfold pass_trace, call_event. destruct (tracking_on self); reflexivity.
Qed.

Lemma start_pressed_runs_no_command fuel self ui fs m t :
  model self = Some m ->
  trace_of (start_pressed fuel self ui fs) = Some t ->
  count is_fetch t = 0%nat.
Proof.
  intros Hm.
  destruct (source_cases self) as [Hs|[Hs|Hs]].
  - rewrite (start_pressed_stream _ _ _ _ Hs). cbv zeta.
    set (cap := VideoCapture (vid_file_name self) fs).
    pose proof (stream_loop_runs_no_command fuel self (ui_stop ui) cap fs m)
      as Hno.
    intros Ht. apply trace_of_after_trace in Ht. destruct Ht as (t' & Ht' & ->).
    rewrite count_app.
    assert (Ho : count is_fetch (open_trace self cap) = 0%nat)
      by (unfold open_trace; destruct (cap_opened cap); reflexivity).
    rewrite Ho.
    destruct (stream_loop fuel self (ui_stop ui) cap fs)
      as [[s' c'] fs' t0|e fs' t0|];
      cbn [finish_stream trace_of] in *; [| |discriminate Ht'];
      injection Ht' as <-; rewrite ?count_app, (Hno _ Hm eq_refl); reflexivity.
  - rewrite (start_pressed_image _ _ _ _ _ Hs Hm).
    destruct (image_data self) as [b|]; [|intros [= <-]; reflexivity].
    destruct (imdecode b) as [image| |e]; cbv zeta;
      [| |intros [= <-]; reflexivity].
    + intros [= <-]. reflexivity.
    + destruct (predict_none _ _ _ _) as [e|r]; intros [= <-]; reflexivity.
  - rewrite (start_pressed_no_source _ _ _ _ Hs). intros [= <-]. reflexivity.
Qed.

(** X10. The model chosen in the select box is on disk already. Then in
    a run of the script that ends, normally or by an exception, the file
    operations of the script itself come down to one: no shell command
    is run, no file is removed, and the uploaded video, if there is one,
    is written to "uploaded_video.mp4". With the calls of the libraries
    (the loader, the capture, the model, the widgets) taken as leaving
    the disk alone, the disk at the end is the one found but for that
    file. *)
Theorem cached_run_writes_only_the_upload fuel argv ui fs name :
  select_option available_models (ui_model ui) = Some name ->
  is_Some (files fs !! model_file name) ->
  (forall t, trace_of (main fuel argv ui fs) = Some t ->
             count is_fetch t = 0%nat) /\
  (forall fs', disk_of (main fuel argv ui fs) = Some fs' ->
     fs' = uploaded ui fs /\
     forall p, p <> "uploaded_video.mp4" -> files fs' !! p = files fs !! p).
Proof.
  intros Hsel Hcached.
  set (self0 := prepared (fresh (argv_model argv)) ui).
  assert (Hin : In name available_models).
  { destruct (select_option_available (ui_model ui)) as (n & Hn & Hin).
    rewrite Hsel in Hn. injection Hn as <-. exact Hin. }
  destruct (dict_lookup_available name Hin) as [file_id Hid].
  assert (Hcfg :
    disk_of (configure self0 ui (uploaded ui fs)) = Some (uploaded ui fs) /\
    forall t, trace_of (configure self0 ui (uploaded ui fs)) = Some t ->
              count is_fetch t = 0%nat).
  { rewrite (configure_eq _ _ _ _ _ Hsel Hid).
    rewrite <- (uploaded_keeps_models ui) in Hcached.
    cbv beta iota delta [bind load_model emit get_fs ret raise after_trace].
    rewrite (download_cached file_id name _ Hcached).
    destruct (YOLO (model_file name) (uploaded ui fs));
      (split; [reflexivity|intros t [= <-]; reflexivity]). }
  destruct Hcfg as [Hdisk Hquiet].
  assert (Hpage : count is_fetch ([ELog (argv_model argv)] ++ page_trace ui)
                  = 0%nat)
    by (unfold page_trace; destruct (ui_source ui); reflexivity).
  split.
  - rewrite main_cases. cbv zeta. fold self0.
    set (pre := [ELog (argv_model argv)] ++ page_trace ui) in *.
    destruct (configure self0 ui (uploaded ui fs)) as [self4 fs4 t4|e fs4 t4|] eqn:Hc;
      [| |discriminate].
    + specialize (Hquiet t4 eq_refl).
      destruct (ui_start ui).
      * intros t Ht. apply trace_of_after_trace in Ht.
        destruct Ht as (t5 & Ht5 & ->).
        destruct (configure_done _ _ _ _ _ _ Hc) as [m ->].
        rewrite !count_app, Hpage, Hquiet.
        rewrite (start_pressed_runs_no_command fuel (set_model (Some m) self0)
                   ui fs4 m t5 eq_refl Ht5).
        reflexivity.
      * cbn [trace_of]. intros t Ht.
        replace t with (pre ++ t4 ++ [EWidget "Start"]) by congruence.
        rewrite !count_app, Hpage, Hquiet. reflexivity.
    + specialize (Hquiet t4 eq_refl). cbn [trace_of].
      intros t Ht. replace t with (pre ++ t4) by congruence.
      rewrite !count_app, Hpage, Hquiet. reflexivity.
  - intros fs' Hend.
    assert (Heq : fs' = uploaded ui fs).
    { revert Hend. rewrite main_cases. cbv zeta. fold self0.
      destruct (configure self0 ui (uploaded ui fs)) as [self4 fs4 t4|e fs4 t4|] eqn:Hc;
        [| |discriminate].
      - cbn [disk_of] in Hdisk. injection Hdisk as ->.
        destruct (ui_start ui).
        + destruct (configure_done _ _ _ _ _ _ Hc) as [m ->].
          pose proof (start_pressed_keeps_disk fuel (set_model (Some m) self0) ui
                        (uploaded ui fs) m fs' eq_refl) as Hk.
          destruct (start_pressed fuel (set_model (Some m) self0) ui (uploaded ui fs));
            cbn [after_trace disk_of] in *; [| |discriminate];
            intros H; exact (Hk H).
        + cbn [disk_of]. intros [= <-]. reflexivity.
      - cbn [disk_of] in *. injection Hdisk as ->. intros [= <-]. reflexivity. }
    split; [exact Heq|].
    intros p Hp. rewrite Heq. apply uploaded_keeps_others. exact Hp.
Qed.

(** ** How a run fails *)

Lemma stream_loop_raises_on_stop fuel : forall self cap fs m e fs' t,
  model self = Some m ->
  stream_loop fuel self false cap fs <> Raised e fs' t.
Proof.
  induction fuel as [|fuel IH]; intros self cap fs m e fs' t Hm;
    (destruct (cap_opened cap) eqn:Hopen;
      [|rewrite stream_loop_closed by exact Hopen; discriminate]).
  - simpl. rewrite Hopen. discriminate.
  - rewrite (stream_loop_step _ _ _ _ _ _ Hm Hopen). cbv zeta.
    destruct (cap_frames cap 0) as [f| |]; [|discriminate..].
    pose proof (IH
      (set_model (Some (snd (call_result (tracking_on self) self m f))) self)
      (advance cap) fs
      (snd (call_result (tracking_on self) self m f))) as IH'.
    destruct (stream_loop fuel _ false (advance cap) fs) as [a fs1 t1|e1 fs1 t1|];
      cbn [after_trace]; [discriminate| |discriminate].
    intros [= -> -> <-]. exact (IH' e fs' t1 eq_refl eq_refl).
Qed.

Lemma start_pressed_raised fuel self ui fs m e fs' t :
  model self = Some m ->
  start_pressed fuel self ui fs = Raised e fs' t ->
  (source self = Some Image /\
   match image_data self with
   | None => e = AttributeError "image_data"
   | Some file_bytes =>
       match imdecode file_bytes with
       | DImage _ => False
       | DNone =>
           e = st_image_none \/
           predict_none m (conf self) (iou self) (selected_ind self) = inl e
       | DRaises e' => e = e'
       end
   end) \/
  (e = StopException /\ ui_stop ui = true /\ is_stream (source self) = true).
Proof.
  intros Hm.
  destruct (source_cases self) as [Hs|[Hs|Hs]].
  - rewrite (start_pressed_stream _ _ _ _ Hs). cbv zeta.
    set (cap := VideoCapture (vid_file_name self) fs).
    pose proof (stream_loop_ends_well fuel self (ui_stop ui) cap fs m Hm) as Hinv.
    pose proof (stream_loop_raises_on_stop fuel self cap fs m) as Hno.
    destruct (stream_loop fuel self (ui_stop ui) cap fs)
      as [[s' c'] fs1 t0|e1 fs1 t0|] eqn:Hl;
      cbn [finish_stream after_trace loop_ends_well] in *;
      [discriminate| |discriminate].
    destruct Hinv as (-> & _). intros [= <- _ _]. right.
    split; [reflexivity|]. split; [|exact Hs].
    destruct (ui_stop ui); [reflexivity|].
    exfalso. exact (Hno _ _ _ Hm Hl).
  - rewrite (start_pressed_image _ _ _ _ _ Hs Hm). intros H. left.
    split; [exact Hs|]. revert H.
    destruct (image_data self) as [b|]; [|intros [= <- _ _]; reflexivity].
    destruct (imdecode b) as [image| |e']; cbv zeta;
      [discriminate| |intros [= <- _ _]; reflexivity].
    destruct (predict_none _ _ _ _) as [e'|r] eqn:Hp;
      intros [= <- _ _]; auto.
  - rewrite (start_pressed_no_source _ _ _ _ Hs). discriminate.
Qed.

Lemma configure_raised self ui fs e fs' t :
  configure self ui fs = Raised e fs' t ->
  exists name,
    select_option available_models (ui_model ui) = Some name /\
    (YOLO (model_file name) fs' = inl e \/
     (e = FileExistsError "models" /\ fs' = fs /\
      files fs !! model_file name = None /\ is_Some (files fs !! "models"))).
Proof.
  destruct (select_option_available (ui_model ui)) as (name & Hsel & Hin).
  destruct (dict_lookup_available name Hin) as [file_id Hid].
  rewrite (configure_eq _ _ _ _ _ Hsel Hid).
  cbv beta iota delta [bind load_model emit get_fs ret raise after_trace].
  destruct (download_ends file_id name fs)
    as [(fs1 & t1 & Hdl & _)|(Hdl & Hmiss & Hdir)]; rewrite Hdl.
  - destruct (YOLO (model_file name) fs1) as [e1|m] eqn:Hy; [|discriminate].
    intros [= <- <- _]. exists name. split; [exact Hsel|]. left. exact Hy.
  - intros [= <- <- _]. exists name. split; [exact Hsel|]. right. auto.
Qed.

(** X11. How a run of the script can end by an exception, the calls of
    the model on a frame, the plot, the capture, its reads and the write
    of the upload being taken as calls that return. Before the Start
    button: [YOLO] raised while loading the file of the chosen model, or
    that file was missing with [models] a regular file and [os.makedirs]
    raised [FileExistsError]. After Start on the source "image": no
    image is uploaded, and it is the [AttributeError] on [image_data];
    or the decoder raised on the upload; or the upload is no image, and
    the exception is that of the model called with [None] or that of
    [st.image] given [None]. After Start on a video or a webcam: the
    Stop button is set, and it is the stop of the script. An upload that
    decodes never makes the run fail. *)
Theorem how_a_run_fails fuel argv ui fs e fs' t :
  main fuel argv ui fs = Raised e fs' t ->
  (exists name,
     select_option available_models (ui_model ui) = Some name /\
     (YOLO (model_file name) fs' = inl e \/
      (e = FileExistsError "models" /\
       files fs !! model_file name = None /\ is_Some (files fs !! "models"))))
  \/
  (ui_start ui = true /\ ui_source ui = Image /\
   match ui_image_file ui with
   | None => e = AttributeError "image_data"
   | Some file_bytes =>
       match imdecode file_bytes with
       | DImage _ => False
       | DNone =>
           e = st_image_none \/
           exists m, predict_none m (ui_conf_value ui) (ui_iou_value ui) []
                     = inl e
       | DRaises e' => e = e'
       end
   end)
  \/
  (e = StopException /\ ui_start ui = true /\ ui_stop ui = true /\
   ui_source ui <> Image).
Proof.
  rewrite main_cases. cbv zeta.
  set (self0 := prepared (fresh (argv_model argv)) ui).
  destruct (prepared_fields (argv_model argv) ui)
    as (Hsrc & _ & Hconf & Hiou & Hsel & _ & _ & Himg).
  fold self0 in Hsrc, Hconf, Hiou, Hsel, Himg.
  destruct (configure self0 ui (uploaded ui fs)) as [self4 fs4 t4|e4 fs4 t4|] eqn:Hc;
    [| |discriminate].
  - destruct (ui_start ui); [|discriminate].
    destruct (configure_done _ _ _ _ _ _ Hc) as [m ->].
    pose proof (start_pressed_raised fuel (set_model (Some m) self0) ui fs4 m)
      as Hr.
    destruct (start_pressed fuel (set_model (Some m) self0) ui fs4)
      as [a fs5 t5|e5 fs5 t5|]; cbn [after_trace]; [discriminate| |discriminate].
    intros [= <- _ _]. right.
    destruct (Hr _ _ _ eq_refl eq_refl) as [(Hs & Hd)|(-> & Hstop & Hs)];
      cbn [source image_data conf iou selected_ind set_model] in Hs;
      rewrite Hsrc in Hs.
    + left. injection Hs as Hs.
      cbn [image_data conf iou selected_ind set_model] in Hd.
      rewrite Himg, Hconf, Hiou, Hsel, Hs in Hd.
      split; [reflexivity|]. split; [exact Hs|].
      destruct (ui_image_file ui) as [b|]; [|exact Hd].
      destruct (imdecode b) as [image| |e']; [exact Hd| |exact Hd].
      destruct Hd as [Hd|Hd]; [left; exact Hd|right; exists m; exact Hd].
    + right. repeat split; [exact Hstop|].
      intros Hi. rewrite Hi in Hs. discriminate Hs.
  - intros [= <- <- _]. left.
    destruct (configure_raised _ _ _ _ _ _ Hc)
      as (name & Hname & [Hy|(He & _ & Hmiss & Hdir)]);
      exists name; (split; [exact Hname|]); [left; exact Hy|right].
    rewrite uploaded_keeps_others in Hmiss
      by apply model_file_is_not_the_upload.
    rewrite uploaded_keeps_others in Hdir by discriminate.
    auto.
Qed.

(** ** A still image, from the widgets to the page *)

Lemma emissions_after_setup (t1 t2 : list Event) :
  forallb is_setup_event t1 = true ->
  emissions (t1 ++ t2) = emissions t2.
Proof.
  induction t1 as [|e t1 IH]; intros H; [reflexivity|].
  cbn [forallb] in H. apply andb_prop in H. destruct H as [He Ht].
  destruct e; try discriminate He; cbn [app emissions]; exact (IH Ht).
Qed.

(** X12. The source is "image", a file is uploaded, Start is pressed
    and [configure] has loaded a model. What the run does is decided by
    what [cv2.imdecode] makes of the upload. An image: the script ends
    normally, and what it shows is one pair, the decoded upload and the
    plot of what the model answers to one plain call on it with the
    values of the two sliders and the empty class list. No image
    ([None]): the model is called once all the same, with [None], and
    the run ends by the exception of that call or of [st.image] given
    [None], nothing shown. The decoder raises: that exception ends the
    run before any call of the model. The Stop button and the tracking
    flag play no part. *)
Theorem image_run_from_the_widgets fuel argv ui fs file_bytes self4 fs4 t4 m :
  ui_source ui = Image ->
  ui_image_file ui = Some file_bytes ->
  ui_start ui = true ->
  configure (prepared (fresh (argv_model argv)) ui) ui (uploaded ui fs)
    = Done self4 fs4 t4 ->
  model self4 = Some m ->
  match imdecode file_bytes with
  | DImage image =>
      let answer := predict m image (ui_conf_value ui) (ui_iou_value ui) [] in
      exists t,
        main fuel argv ui fs
        = Done (set_model (Some (snd answer)) self4) fs4 t /\
        emissions t = [(image, plot (fst answer))] /\
        count is_model_call t = 1%nat /\
        In (EPredict image (ui_conf_value ui) (ui_iou_value ui) []) t
  | DNone =>
      exists e t,
        main fuel argv ui fs = Raised e fs4 t /\
        (e = st_image_none \/
         predict_none m (ui_conf_value ui) (ui_iou_value ui) [] = inl e) /\
        emissions t = [] /\
        count is_model_call t = 1%nat /\
        In (EPredictNone (ui_conf_value ui) (ui_iou_value ui) []) t
  | DRaises e =>
      exists t,
        main fuel argv ui fs = Raised e fs4 t /\
        emissions t = [] /\
        count is_model_call t = 0%nat
  end.
Proof.
  intros Hsrc Himg Hstart Hc Hm.
  pose proof (configure_trace_setup _ _ _ t4 ltac:(rewrite Hc; reflexivity)) as Hq.
  destruct (prepared_fields (argv_model argv) ui)
    as (Hs & _ & Hconf & Hiou & Hsel & _ & _ & Hdata).
  rewrite Hsrc, Himg in Hdata. rewrite Hsrc in Hs.
  rewrite main_cases. cbv zeta. rewrite Hc, Hstart.
  destruct (configure_done _ _ _ _ _ _ Hc) as [m0 Hself].
  assert (Hm0 : m0 = m).
  { rewrite Hself in Hm. cbn [model set_model] in Hm. congruence. }
  subst m0.
  assert (Hpre : forallb is_setup_event
                   (([ELog (argv_model argv)] ++ page_trace ui) ++
                    t4 ++ [EWidget "Start"]) = true).
  { rewrite !forallb_app, page_trace_setup, Hq. reflexivity. }
  destruct (setup_events_are_quiet _ Hpre) as (_ & Hcalls & _).
  set (pre := ([ELog (argv_model argv)] ++ page_trace ui) ++
              t4 ++ [EWidget "Start"]) in *.
  rewrite (start_pressed_image fuel self4 ui fs4 m
             ltac:(rewrite Hself; exact Hs) Hm).
  rewrite Hself. cbn [image_data conf iou selected_ind set_model].
  rewrite Hdata, Hconf, Hiou, Hsel.
  destruct (imdecode file_bytes) as [image| |e]; cbv zeta.
  - cbn [after_trace]. eexists. split; [reflexivity|]. split; [|split].
    + rewrite emissions_after_setup by exact Hpre. reflexivity.
    + rewrite count_app, Hcalls. reflexivity.
    + apply in_or_app. right. apply in_eq.
  - destruct (predict_none m (ui_conf_value ui) (ui_iou_value ui) [])
      as [e|r] eqn:Hp; cbn [after_trace]; eexists _, _;
      (split; [reflexivity|]); (split; [auto|]);
      (split; [rewrite emissions_after_setup by exact Hpre; reflexivity|]);
      (split; [rewrite count_app, Hcalls; reflexivity|]);
      apply in_or_app; right; apply in_eq.
  - cbn [after_trace]. eexists. split; [reflexivity|]. split.
    + rewrite emissions_after_setup by exact Hpre. reflexivity.
    + rewrite count_app, Hcalls. reflexivity.
Qed.

(** ** The command-line argument *)

Lemma loop_body_arg a self stop cap fs :
  loop_body (with_model_arg a self) stop cap fs =
  map_outcome (fun x => (fst (fst x), with_model_arg a (snd (fst x)), snd x))
    (loop_body self stop cap fs).
Proof.
  unfold loop_body, cap_read, call_track, call_predict, plot_first,
    cap_release, st_stop, tracking_on.
  cbn [with_model_arg enable_trk model conf iou selected_ind].
  run_script.
  destruct (cap_frames cap 0) as [f| |]; [|reflexivity..].
  destruct (enable_trk self) as [[|]|]; simpl;
    destruct (model self) as [m|]; simpl; try reflexivity;
    [destruct (track _ _ _ _ _ _) as [r m']
    |destruct (predict _ _ _ _ _) as [r m']
    |destruct (predict _ _ _ _ _) as [r m']];
    destruct stop; reflexivity.
Qed.

Lemma stream_loop_arg a fuel : forall self stop cap fs,
  stream_loop fuel (with_model_arg a self) stop cap fs =
  map_outcome (fun x => (with_model_arg a (fst x), snd x))
    (stream_loop fuel self stop cap fs).
Proof.
  induction fuel as [|fuel IH]; intros self stop cap fs; cbn [stream_loop];
    destruct (cap_opened cap); try reflexivity.
  unfold bind. rewrite loop_body_arg.
  destruct (loop_body self stop cap fs) as [[[fl s] c] fs1 t1|e fs1 t1|];
    cbn [map_outcome fst snd]; [|reflexivity..].
  destruct fl; [reflexivity|].
  rewrite IH.
  destruct (stream_loop fuel s stop c fs1) as [[s' c'] fs2 t2|e fs2 t2|];
    reflexivity.
Qed.

Lemma start_pressed_arg a fuel self ui fs :
  start_pressed fuel (with_model_arg a self) ui fs =
  map_outcome (with_model_arg a) (start_pressed fuel self ui fs).
Proof.
  unfold start_pressed, run_stream, run_image, call_predict,
    call_predict_none, plot_first, button, cap_release.
  cbn [with_model_arg source image_data vid_file_name model conf iou
       selected_ind].
  destruct (source self) as [[| |]|].
  - unfold bind at 1 2 3 4 5. unfold bind at 6 7 8 9 10.
    cbv beta iota delta [emit ret get_fs].
    destruct (cap_opened (VideoCapture (vid_file_name self) fs));
      cbn [negb]; unfold bind; rewrite stream_loop_arg;
      destruct (stream_loop fuel self (ui_stop ui) _ fs)
        as [[s' c'] fs2 t2|e fs2 t2|]; reflexivity.
  - unfold bind at 1 2 3 4 5. unfold bind at 6 7 8 9 10.
    cbv beta iota delta [emit ret get_fs].
    destruct (cap_opened (VideoCapture (vid_file_name self) fs));
      cbn [negb]; unfold bind; rewrite stream_loop_arg;
      destruct (stream_loop fuel self (ui_stop ui) _ fs)
        as [[s' c'] fs2 t2|e fs2 t2|]; reflexivity.
  - run_script. destruct (image_data self) as [b|]; [|reflexivity].
    destruct (imdecode b) as [image| |e]; simpl; [| |reflexivity];
      (destruct (model self) as [m|]; simpl; [|reflexivity]).
    + destruct (predict _ _ _ _ _) as [r m']. reflexivity.
    + destruct (predict_none _ _ _ _) as [e|[r m']]; reflexivity.
  - reflexivity.
Qed.

Lemma configure_arg a self ui fs :
  configure (with_model_arg a self) ui fs =
  map_outcome (with_model_arg a) (configure self ui fs).
Proof.
  destruct (select_option_available (ui_model ui)) as (name & Hsel & Hin).
  destruct (dict_lookup_available name Hin) as [file_id Hid].
  rewrite !(configure_eq _ _ _ _ _ Hsel Hid).
  cbv beta iota delta [bind load_model emit get_fs ret raise after_trace].
  destruct (download_from_gdrive file_id name fs) as [[] fs1 t1|e fs1 t1|];
    [|reflexivity..].
  destruct (YOLO (model_file name) fs1); reflexivity.
Qed.

Lemma prepared_arg a ui :
  prepared (fresh a) ui = with_model_arg a (prepared (fresh None) ui).
Proof.
  unfold prepared, after_sidebar.
  destruct ui as [src trk c i vf imf mdl st sp]; cbn [ui_source ui_tracking
    ui_conf ui_iou ui_video_file ui_image_file].
  destruct src; [|destruct vf|destruct imf]; reflexivity.
Qed.

(** X13. The model name given on the command line is logged and kept in
    [self.temp_dict] and [self.model_path], and that is all: from
    [web_ui] to the end, a run with the argument is the run of an object
    made without it, event for event, disk for disk, exception for
    exception, the two attributes apart. No method reads them. *)
Theorem run_does_not_read_the_argument fuel argv ui fs :
  main fuel argv ui fs =
  after_trace [ELog (argv_model argv)]
    (map_outcome (with_model_arg (argv_model argv))
       (inference fuel (fresh None) ui fs)).
Proof.
  rewrite main_eq. f_equal. rewrite !inference_eq.
  rewrite (prepared_arg (argv_model argv) ui).
  unfold bind at 1 3. rewrite configure_arg.
  destruct (configure (prepared (fresh None) ui) ui (uploaded ui fs))
    as [self4 fs4 t4|e fs4 t4|]; cbn [map_outcome after_trace];
    [|reflexivity..].
  cbv beta iota delta [bind button emit ret].
  destruct (ui_start ui); [|reflexivity].
  rewrite start_pressed_arg.
  destruct (start_pressed fuel self4 ui fs4); reflexivity.
Qed.

(** ** What is read is what is shown *)

Lemma setup_events_no_read (t : list Event) :
  forallb is_setup_event t = true -> count is_good_read t = 0%nat.
Proof.
  induction t as [|e t IH]; intros H; [reflexivity|].
  cbn [forallb] in H. apply andb_prop in H. destruct H as [He Ht].
  destruct e; try discriminate He; cbn [count is_good_read];
    rewrite (IH Ht); reflexivity.
Qed.

Lemma stream_loop_shows_reads fuel : forall self cap fs m x fs' t,
  model self = Some m ->
  stream_loop fuel self false cap fs = Done x fs' t ->
  length (emissions t) = count is_good_read t /\
  forall tail, emissions (t ++ tail) = emissions t ++ emissions tail.
Proof.
  induction fuel as [|fuel IH]; intros self cap fs m x fs' t Hm;
    (destruct (cap_opened cap) eqn:Hopen;
      [|rewrite stream_loop_closed by exact Hopen; intros [= _ _ <-];
        split; reflexivity]).
  - simpl. rewrite Hopen. discriminate.
  - rewrite (stream_loop_step _ _ _ _ _ _ Hm Hopen). cbv zeta.
    destruct (cap_frames cap 0) as [f| |];
      [|intros [= _ _ <-]; split; reflexivity..].
    destruct (stream_loop fuel
                (set_model (Some (snd (call_result (tracking_on self) self m f)))
                   self) false (advance cap) fs)
      as [x1 fs1 t1|e1 fs1 t1|] eqn:Hl; cbn [after_trace]; try discriminate.
    intros [= _ _ <-].
    assert (Hrest : length (emissions t1) = count is_good_read t1 /\
                    forall tail, emissions (t1 ++ tail)
                                 = emissions t1 ++ emissions tail)
      by (eapply IH; [|exact Hl]; reflexivity).
    destruct Hrest as [Hlen Htail].
    unfold pass_trace, call_event.
    destruct (tracking_on self);
      cbn [app emissions fst snd length count is_good_read];
      (split; [rewrite Hlen; reflexivity|]);
      intros tail; rewrite Htail; reflexivity.
Qed.

Lemma stream_loop_stop_shows_nothing fuel self cap fs m t :
  model self = Some m ->
  trace_of (stream_loop fuel self true cap fs) = Some t ->
  (count is_good_read t <= 1)%nat /\
  forall tail, emissions (t ++ tail) = emissions tail.
Proof.
  intros Hm.
  destruct (cap_opened cap) eqn:Hopen;
    [|rewrite stream_loop_closed by exact Hopen; intros [= <-];
      split; [simpl; lia|reflexivity]].
  destruct fuel as [|fuel]; [simpl; rewrite Hopen; discriminate|].
  rewrite (stream_loop_step _ _ _ _ _ _ Hm Hopen). cbv zeta.
  destruct (cap_frames cap 0) as [f| |]; cbn [trace_of]; intros [= <-];
    unfold call_event; try destruct (tracking_on self);
    (split; [simpl; lia|reflexivity]).
Qed.

(** X14. In a run of the script on a video or a webcam that ends, the
    model is called once for each frame read. When the Stop button is
    not set, each frame read is shown, with its annotated frame, once;
    when it is set, at most one frame is read and nothing is shown. *)
Theorem every_read_frame_is_shown fuel argv ui fs t :
  ui_source ui <> Image ->
  trace_of (main fuel argv ui fs) = Some t ->
  count is_model_call t = count is_good_read t /\
  if ui_stop ui
  then emissions t = [] /\ (count is_good_read t <= 1)%nat
  else length (emissions t) = count is_good_read t.
Proof.
  intros Hsrc. rewrite main_cases. cbv zeta.
  set (self0 := prepared (fresh (argv_model argv)) ui).
  pose proof (configure_trace_setup self0 ui (uploaded ui fs)) as Hq.
  destruct (prepared_fields (argv_model argv) ui) as (Hs & _).
  fold self0 in Hs.
  assert (Hquiet : forall t4 tail,
    forallb is_setup_event t4 = true ->
    forallb is_setup_event tail = true ->
    let t := ([ELog (argv_model argv)] ++ page_trace ui) ++ t4 ++ tail in
    forallb is_setup_event t = true /\
    count is_model_call t = 0%nat /\ count is_good_read t = 0%nat /\
    emissions t = []).
  { intros t4 tail H4 Htail. cbv zeta.
    assert (Hall : forallb is_setup_event
                     (([ELog (argv_model argv)] ++ page_trace ui) ++ t4 ++ tail)
                   = true)
      by (rewrite !forallb_app, page_trace_setup, H4, Htail; reflexivity).
    destruct (setup_events_are_quiet _ Hall) as (H1 & H2 & _).
    pose proof (setup_events_no_read _ Hall). auto. }
  assert (Hnothing : forall t0 : list Event,
    count is_model_call t0 = 0%nat -> count is_good_read t0 = 0%nat ->
    emissions t0 = [] ->
    count is_model_call t0 = count is_good_read t0 /\
    if ui_stop ui
    then emissions t0 = [] /\ (count is_good_read t0 <= 1)%nat
    else length (emissions t0) = count is_good_read t0).
  { intros t0 H1 H2 H3. rewrite H1, H2, H3.
    destruct (ui_stop ui); repeat split; simpl; lia. }
  destruct (configure self0 ui (uploaded ui fs)) as [self4 fs4 t4|e fs4 t4|] eqn:Hc;
    [| |discriminate].
  2:{ specialize (Hq t4 eq_refl). cbn [trace_of]. intros Ht.
      destruct (Hquiet t4 [] Hq eq_refl) as (_ & H1 & H2 & H3).
      rewrite app_nil_r in H1, H2, H3.
      injection Ht as <-. apply Hnothing; assumption. }
  specialize (Hq t4 eq_refl).
  destruct (Hquiet t4 [EWidget "Start"] Hq eq_refl) as (Hpre & H1 & H2 & H3).
  set (pre := ([ELog (argv_model argv)] ++ page_trace ui) ++
              t4 ++ [EWidget "Start"]) in *.
  destruct (ui_start ui);
    [|cbn [trace_of]; intros [= <-]; apply Hnothing; assumption].
  intros Ht. apply trace_of_after_trace in Ht. destruct Ht as (t5 & Ht5 & ->).
  destruct (configure_done _ _ _ _ _ _ Hc) as [m ->].
  set (self4 := set_model (Some m) self0) in *.
  assert (Hstream : is_stream (source self4) = true).
  { cbn [self4 source set_model]. rewrite Hs.
    destruct (ui_source ui); [reflexivity|reflexivity|contradiction]. }
  rewrite (start_pressed_stream _ _ _ _ Hstream) in Ht5. cbv zeta in Ht5.
  set (cap := VideoCapture (vid_file_name self4) fs4) in *.
  apply trace_of_after_trace in Ht5. destruct Ht5 as (t6 & Ht6 & ->).
  pose proof (stream_loop_ends_well fuel self4 (ui_stop ui) cap fs4 m eq_refl)
    as Hinv.
  assert (Hopen : count is_model_call (open_trace self4 cap) = 0%nat /\
                  count is_good_read (open_trace self4 cap) = 0%nat /\
                  forall tail, emissions (open_trace self4 cap ++ tail)
                               = emissions tail).
  { unfold open_trace. destruct (cap_opened cap); repeat split. }
  destruct Hopen as (Ho1 & Ho2 & Ho3).
  rewrite emissions_after_setup by exact Hpre.
  rewrite Ho3, !count_app, H1, H2, Ho1, Ho2. cbn [Nat.add].
  destruct (ui_stop ui) eqn:Hstop.
  - pose proof (stream_loop_stop_shows_nothing fuel self4 cap fs4 m) as Hshow.
    destruct (stream_loop fuel self4 true cap fs4) as [[s' c'] fs5 t7|e fs5 t7|];
      cbn [finish_stream trace_of loop_ends_well] in *; [| |discriminate Ht6];
      injection Ht6 as <-;
      destruct (Hshow _ eq_refl eq_refl) as [Hle Hem].
    + destruct Hinv as (_ & _ & _ & Hcnt).
      rewrite Hem, !count_app, Hcnt. simpl. repeat split; lia.
    + destruct Hinv as (_ & _ & _ & _ & Hcnt).
      pose proof (Hem []) as Hem0. rewrite app_nil_r in Hem0.
      rewrite Hem0, Hcnt. simpl. repeat split; lia.
  - destruct (stream_loop fuel self4 false cap fs4) as [[s' c'] fs5 t7|e fs5 t7|]
      eqn:Hl; cbn [finish_stream trace_of loop_ends_well] in *;
      [| |discriminate Ht6]; injection Ht6 as <-.
    + destruct Hinv as (_ & _ & _ & Hcnt).
      destruct (stream_loop_shows_reads fuel self4 cap fs4 m _ _ _ eq_refl Hl)
        as [Hlen Htail].
      rewrite Htail, !count_app, Hcnt, length_app, Hlen. simpl. lia.
    + exfalso.
      exact (stream_loop_raises_on_stop fuel self4 cap fs4 m _ _ _ eq_refl Hl).
Qed.

End Properties.

(** * The claims on the small world *)

(** C1: the claim fails. A video of two frames that ends ([REndOfStream])
    and a video of two frames whose third read fails ([RReadError]) give
    the same run, event for event: both show two pairs and then the
    warning "Failed to read frame."; no run state tells the end of the
    file from a failure. *)
Lemma eof_run_warns_like_a_failed_read :
  let ui := demo_ui Video Yes (Some [Byte.x00]) None true false in
  let run last :=
    demo_main wget_nothing (demo_video [7; 8]%nat last) 3 [script] ui
      demo_disk in
  run REndOfStream = run RReadError /\
  trace_of (run REndOfStream) =
  Some (demo_page None "Upload Video File" ++
        [EWidget "Stop"; ECapOpen (VStr "uploaded_video.mp4");
         ECapRead true; ETrack 7%nat (25 # 100) (45 # 100) [] true; EPlot;
         EOrgImage 7%nat None; EAnnImage 207%nat None;
         ECapRead true; ETrack 8%nat (25 # 100) (45 # 100) [] true; EPlot;
         EOrgImage 8%nat None; EAnnImage 208%nat None;
         ECapRead false; EWarning "Failed to read frame.";
         ECapRelease; EDestroyAllWindows]).
Proof. split; vm_compute; reflexivity. Qed.

(** A video of two frames, tracking on, Stop not pressed: two pairs. *)
Lemma video_run_shows_every_frame_witness :
  exists t,
    trace_of (demo_start_pressed (demo_video [7; 8]%nat REndOfStream) 3
                (demo_self Video Yes (VStr "uploaded_video.mp4") None)
                (demo_ui Video Yes (Some [Byte.x00]) None true false)
                demo_disk) = Some t /\
    emissions t = [(7, 207); (8, 208)]%nat.
Proof.
  destruct (video_run_shows_every_frame
      (W := demo_world wget_nothing (demo_video [7; 8]%nat REndOfStream))
      3
              (demo_self Video Yes (VStr "uploaded_video.mp4") None)
              (demo_ui Video Yes (Some [Byte.x00]) None true false)
              demo_disk 0%nat [7; 8]%nat (fun _ => REndOfStream)
              eq_refl eq_refl eq_refl eq_refl eq_refl ltac:(simpl; lia))
    as (Hrun & Hem & _).
  eexists. split.
  - unfold demo_start_pressed. rewrite Hrun. reflexivity.
  - exact Hem.
Defined.

(** A camera whose third read fails: the run ends, one release. *)
Lemma capture_released_once_witness :
  exists t,
    trace_of (demo_start_pressed (demo_video [7; 8]%nat RReadError) 3
                (demo_self Webcam No (VInt 0) None)
                (demo_ui Webcam No None None true false)
                demo_disk) = Some t /\
    count is_release t = 1%nat.
Proof.
  destruct (capture_released_once
      (W := demo_world wget_nothing (demo_video [7; 8]%nat RReadError))
      3
              (demo_self Webcam No (VInt 0) None)
              (demo_ui Webcam No None None true false)
              demo_disk 0%nat eq_refl eq_refl)
    as [Honce Hexit].
  destruct Hexit as [t Ht].
  - right. right. exists 2%nat. split; [reflexivity|lia].
  - exists t. split; [exact Ht|exact (Honce t Ht)].
Defined.



(** An image of two bytes, the default thresholds 0.25 and 0.45. *)
Lemma image_run_shows_one_pair_witness :
  demo_start_pressed (demo_video [] REndOfStream) 0
    (demo_self Image Yes (VStr "") (Some [Byte.x00; Byte.x01]))
    (demo_ui Image Yes None (Some [Byte.x00; Byte.x01]) true false)
    demo_disk
  = Done (mkInference (Some Image) (Some Yes) (25 # 100) (45 # 100) (VStr "")
            [] (Some 1%nat) None None (Some [Byte.x00; Byte.x01]))
         demo_disk
         [EPredict 2%nat (25 # 100) (45 # 100) []; EPlot;
          EOrgImage 2%nat (Some "Original Image");
          EAnnImage 102%nat (Some "Detected Image"); EDestroyAllWindows].
Proof.
  exact (proj1 (image_run_shows_one_pair
      (W := demo_world wget_nothing (demo_video [] REndOfStream))
      0
           (demo_self Image Yes (VStr "") (Some [Byte.x00; Byte.x01]))
           (demo_ui Image Yes None (Some [Byte.x00; Byte.x01]) true false)
           demo_disk 0%nat [Byte.x00; Byte.x01] 2%nat
           eq_refl eq_refl eq_refl eq_refl
           ltac:(split; unfold Qle; simpl; lia)
           ltac:(split; unfold Qle; simpl; lia))).
Defined.





(** An empty disk and a download that delivers 10001 bytes: the first
    call fetches, the second only finds the file. *)
Lemma resolve_again_fetches_nothing_witness :
  let download :=
    download_from_gdrive (W := demo_world wget_model (demo_video [] REndOfStream))
      "1RYJiKwAV2Ueg05_W9U20Y_h0D5SYDFpC" "YOLO11m_baseline" in
  trace_of ((download ;; download) empty_disk) =
  Some [EPrint (MsgDownloading "YOLO11m_baseline");
        ESystem (wget_command "models/YOLO11m_baseline.pt"
                   (gdrive_url "1RYJiKwAV2Ueg05_W9U20Y_h0D5SYDFpC"));
        EPrint (MsgDownloaded "YOLO11m_baseline" 10001);
        EPrint (MsgExists "YOLO11m_baseline")].
Proof.
  cbv zeta.
  rewrite (proj1 (resolve_again_fetches_nothing
             (W := demo_world wget_model (demo_video [] REndOfStream))
             "1RYJiKwAV2Ueg05_W9U20Y_h0D5SYDFpC" "YOLO11m_baseline"
             empty_disk
             (fetched (W := demo_world wget_model (demo_video [] REndOfStream))
                "1RYJiKwAV2Ueg05_W9U20Y_h0D5SYDFpC" "YOLO11m_baseline"
                empty_disk)
             [EPrint (MsgDownloading "YOLO11m_baseline");
              ESystem (wget_command "models/YOLO11m_baseline.pt"
                         (gdrive_url "1RYJiKwAV2Ueg05_W9U20Y_h0D5SYDFpC"));
              EPrint (MsgDownloaded "YOLO11m_baseline" 10001)]
             ltac:(vm_compute; reflexivity)
             ltac:(vm_compute; eauto))).
  reflexivity.
Defined.

(** Source "image", nothing uploaded, Start pressed, the model cached. *)
Lemma image_start_without_upload_witness :
  demo_main wget_nothing (demo_video [] REndOfStream) 0 [script]
    (demo_ui Image Yes None None true false) demo_disk
  = Raised (AttributeError "image_data") demo_disk
      (demo_page None "Upload Image File").
Proof.
  exact (proj1 (image_start_without_upload
      (W := demo_world wget_nothing (demo_video [] REndOfStream))
      0 [script]
           (demo_ui Image Yes None None true false) demo_disk
           (mkInference (Some Image) (Some Yes) (25 # 100) (45 # 100)
              (VStr "") [] (Some 0%nat) None None None)
           demo_disk
           [EWidget "Model"; EPrint (MsgExists "YOLO11m_baseline");
            ELoadModel "models/YOLO11m_baseline.pt";
            ESuccess "Model loaded successfully!"]
           eq_refl eq_refl eq_refl ltac:(vm_compute; reflexivity))).
Defined.

(** C5: the model named on the command line is not the one loaded. The
    script is started with the argument [YOLO11m_CBAM], whose file is on
    disk, and the "Model" select box is left on its first option:
    [__init__] stores the argument in [temp_dict] and [model_path], and
    [configure] loads [models/YOLO11m_baseline.pt], as it does without
    the argument. *)
Lemma model_argument_is_not_used :
  let ui := demo_ui Image Yes None (Some [Byte.x00; Byte.x01]) false false in
  let run argv :=
    demo_main wget_nothing (demo_video [] REndOfStream) 0 argv ui
      two_model_disk in
  run [script; "YOLO11m_CBAM"] =
  Done (mkInference (Some Image) (Some Yes) (25 # 100) (45 # 100) (VStr "") []
          (Some 0%nat) (Some "YOLO11m_CBAM") (Some "YOLO11m_CBAM")
          (Some [Byte.x00; Byte.x01]))
       two_model_disk
       (demo_page (Some "YOLO11m_CBAM") "Upload Image File")
  /\ trace_of (run [script]) = Some (demo_page None "Upload Image File")
  /\ In (ELoadModel "models/YOLO11m_baseline.pt")
        (demo_page (Some "YOLO11m_CBAM") "Upload Image File")
  /\ ~ In (ELoadModel "models/YOLO11m_CBAM.pt")
        (demo_page (Some "YOLO11m_CBAM") "Upload Image File").
Proof.
  split; [vm_compute; reflexivity|].
  split; [vm_compute; reflexivity|].
  split.
  - unfold demo_page. simpl. tauto.
  - unfold demo_page. simpl. intros H.
    repeat (destruct H as [H|H]; [discriminate H|]). exact H.
Qed.

(** * More of the script, on the small world *)

(** [models] is a regular file and the model is not cached: the download
    raises before any command is run, and a run without Start ends there,
    with no load tried. *)
Lemma a_file_named_models_blocks_the_download :
  download_from_gdrive
    (W := demo_world wget_model (demo_video [] REndOfStream))
    "1RYJiKwAV2Ueg05_W9U20Y_h0D5SYDFpC" "YOLO11m_baseline" blocked_disk
  = Raised (FileExistsError "models") blocked_disk [] /\
  demo_main wget_model (demo_video [] REndOfStream) 0 [script]
    (demo_ui Webcam No None None false false) blocked_disk
  = Raised (FileExistsError "models") blocked_disk
      [ELog None; EWidget "page_config"; EMarkdown; EMarkdown; EMarkdown;
       EWidget "logo"; EWidget "User Configuration"; EWidget "Select Source";
       EWidget "Enable Tracking"; EWidget "Confidence Threshold";
       EWidget "IoU Threshold"; EWidget "columns"; EWidget "Model"].
Proof. split; vm_compute; reflexivity. Qed.

(** An empty disk and a download that leaves exactly 10000 bytes: the
    file is not kept. *)
Lemma download_keeps_by_size_witness :
  exists fs' t,
    download_from_gdrive
      (W := demo_world wget_boundary (demo_video [] REndOfStream))
      "1RYJiKwAV2Ueg05_W9U20Y_h0D5SYDFpC" "YOLO11m_baseline" empty_disk
    = Done tt fs' t /\
    files fs' !! model_file "YOLO11m_baseline" = None.
Proof.
  destruct (download_keeps_by_size
      (W := demo_world wget_boundary (demo_video [] REndOfStream))
      "1RYJiKwAV2Ueg05_W9U20Y_h0D5SYDFpC" "YOLO11m_baseline" empty_disk
      ltac:(vm_compute; reflexivity))
    as (fs' & t & Hrun & Hfile & _).
  exists fs', t. split; [exact Hrun|].
  rewrite Hfile. vm_compute. reflexivity.
Defined.

(** The page is drawn on a video source and Start is not pressed. *)
Lemma without_start_only_the_model_is_loaded_witness :
  exists t,
    trace_of (demo_main wget_nothing (demo_video [7; 8]%nat REndOfStream) 5
                [script] (demo_ui Video Yes (Some [Byte.x00]) None false false)
                demo_disk) = Some t /\
    In (ELoadModel (model_file "YOLO11m_baseline")) t /\
    count is_model_call t = 0%nat /\
    count is_cap_open t = 0%nat.
Proof.
  destruct (without_start_only_the_model_is_loaded
      (W := demo_world wget_nothing (demo_video [7; 8]%nat REndOfStream))
      5 [script] (demo_ui Video Yes (Some [Byte.x00]) None false false)
      demo_disk eq_refl)
    as (name & t & Hsel & _ & Ht & Hload & _ & _ & Hcalls & Hopen).
  injection Hsel as <-.
  exists t. split; [exact Ht|].
  split; [apply Hload; right; vm_compute; reflexivity|].
  split; [exact Hcalls|exact Hopen].
Defined.

(** A webcam that does not open. *)
Lemma source_without_a_frame_witness :
  demo_start_pressed demo_no_device 3
    (demo_self Webcam No (VInt 0) None)
    (demo_ui Webcam No None None true false)
    demo_disk
  = Done (demo_self Webcam No (VInt 0) None) demo_disk
      [EWidget "Stop"; ECapOpen (VInt 0);
       EError "Could not open video/webcam.";
       ECapRelease; EDestroyAllWindows].
Proof.
  exact (proj1 (source_without_a_frame
      (W := demo_world wget_nothing demo_no_device)
      3 (demo_self Webcam No (VInt 0) None)
      (demo_ui Webcam No None None true false)
      demo_disk eq_refl) eq_refl).
Defined.

(** A webcam with a frame at every read, a thousand passes allowed. *)
Lemma live_camera_run_never_returns_witness :
  demo_start_pressed demo_camera 1000
    (demo_self Webcam No (VInt 0) None)
    (demo_ui Webcam No None None true false)
    demo_disk
  = OutOfFuel.
Proof.
  exact (live_camera_run_never_returns
      (W := demo_world wget_nothing demo_camera)
      1000 (demo_self Webcam No (VInt 0) None)
      (demo_ui Webcam No None None true false)
      demo_disk 0%nat eq_refl eq_refl eq_refl eq_refl (fun k => eq_refl)).
Defined.

(** The whole script on a video of two frames. *)
Lemma main_releases_what_it_opens_witness :
  exists t,
    trace_of (demo_main wget_nothing (demo_video [7; 8]%nat REndOfStream) 3
                [script] (demo_ui Video Yes (Some [Byte.x00]) None true false)
                demo_disk) = Some t /\
    count is_release t = count is_cap_open t /\
    (count is_cap_open t <= 1)%nat.
Proof.
  eexists. split; [vm_compute; reflexivity|].
  apply (main_releases_what_it_opens
      (W := demo_world wget_nothing (demo_video [7; 8]%nat REndOfStream))
      3 [script] (demo_ui Video Yes (Some [Byte.x00]) None true false)
      demo_disk).
  vm_compute. reflexivity.
Defined.

(** The two sliders moved to 0.5 and 0.6, a video of one frame. *)
Lemma model_calls_take_the_widget_values_witness :
  Forall
    (call_from_ui
       (mkUI Video Yes (Some (50 # 100)) (Some (60 # 100)) (Some [Byte.x00])
          None 0 true false))
    (demo_page None "Upload Video File" ++
     [EWidget "Stop"; ECapOpen (VStr "uploaded_video.mp4");
      ECapRead true; ETrack 7%nat (50 # 100) (60 # 100) [] true; EPlot;
      EOrgImage 7%nat None; EAnnImage 207%nat None;
      ECapRead false; EWarning "Failed to read frame.";
      ECapRelease; EDestroyAllWindows]).
Proof.
  exact (model_calls_take_the_widget_values
      (W := demo_world wget_nothing (demo_video [7]%nat REndOfStream))
      2 [script]
      (mkUI Video Yes (Some (50 # 100)) (Some (60 # 100)) (Some [Byte.x00])
         None 0 true false)
      demo_disk _ ltac:(vm_compute; reflexivity)).
Defined.

(** A video source with nothing uploaded: the capture is opened on the
    empty name. *)
Lemma capture_is_opened_on_the_chosen_source_witness :
  exists t,
    trace_of (demo_main wget_nothing (demo_video [7]%nat REndOfStream) 2
                [script] (demo_ui Video No None None true false)
                demo_disk) = Some t /\
    In (ECapOpen (VStr "")) t /\
    VStr "" = capture_name (demo_ui Video No None None true false).
Proof.
  eexists. split; [vm_compute; reflexivity|].
  match goal with
  | |- In ?e ?t /\ _ =>
      assert (Hin : In e t) by (repeat (first [left; reflexivity | right]))
  end.
  split; [exact Hin|].
  refine (proj1 (capture_is_opened_on_the_chosen_source
      (W := demo_world wget_nothing (demo_video [7]%nat REndOfStream))
      2 [script] (demo_ui Video No None None true false) demo_disk
      _ (VStr "") _ Hin)).
  vm_compute. reflexivity.
Defined.

(** The model cached, a video of one byte uploaded, Start pressed. *)
Lemma cached_run_writes_only_the_upload_witness :
  exists fs' t,
    demo_main wget_nothing (demo_video [7]%nat REndOfStream) 2
      [script] (demo_ui Video Yes (Some [Byte.x00]) None true false)
      demo_disk
    = Done (set_model (Some 1%nat)
              (demo_self Video Yes (VStr "uploaded_video.mp4") None)) fs' t /\
    fs' = fs_write "uploaded_video.mp4" [Byte.x00] demo_disk /\
    count is_fetch t = 0%nat.
Proof.
  destruct (cached_run_writes_only_the_upload
      (W := demo_world wget_nothing (demo_video [7]%nat REndOfStream))
      2 [script] (demo_ui Video Yes (Some [Byte.x00]) None true false)
      demo_disk "YOLO11m_baseline" eq_refl ltac:(vm_compute; eauto))
    as [Hquiet Hdisk].
  eexists _, _. split; [vm_compute; reflexivity|]. split.
  - refine (proj1 (Hdisk _ _)). vm_compute. reflexivity.
  - apply Hquiet. vm_compute. reflexivity.
Defined.

(** The source is "image" and the upload is a page of markup: the model
    is called with no image, and [st.image] raises. *)
Lemma how_a_run_fails_witness :
  let ui := demo_ui Image No None (Some [Byte.x3c; Byte.x68; Byte.x3e])
              true false in
  exists fs' t,
    demo_main wget_nothing (demo_video [] REndOfStream) 0 [script] ui demo_disk
    = Raised (LibraryError "st.image") fs' t /\
    ((exists name,
        select_option available_models (ui_model ui) = Some name /\
        (demo_yolo (model_file name) fs' = inl (LibraryError "st.image") \/
         (LibraryError "st.image" = FileExistsError "models" /\
          files demo_disk !! model_file name = None /\
          is_Some (files demo_disk !! "models")))) \/
     (ui_start ui = true /\ ui_source ui = Image /\
      (LibraryError "st.image" = LibraryError "st.image" \/
       exists m, demo_predict_none m (ui_conf_value ui) (ui_iou_value ui) []
                 = inl (LibraryError "st.image"))) \/
     (LibraryError "st.image" = StopException /\ ui_start ui = true /\
      ui_stop ui = true /\ ui_source ui <> Image)).
Proof.
  intros ui. eexists _, _. split; [vm_compute; reflexivity|].
  eapply (how_a_run_fails
      (W := demo_world wget_nothing (demo_video [] REndOfStream))
      0 [script] ui demo_disk).
  vm_compute. reflexivity.
Defined.

(** The same upload, from the widgets: one call with no image, nothing
    shown, the exception of [st.image]. *)
Lemma image_run_from_the_widgets_witness :
  exists e t,
    demo_main wget_nothing (demo_video [] REndOfStream) 0 [script]
      (demo_ui Image Yes None (Some [Byte.x3c; Byte.x68; Byte.x3e]) true false)
      demo_disk
    = Raised e demo_disk t /\
    e = LibraryError "st.image" /\
    emissions t = [] /\
    count is_model_call t = 1%nat /\
    In (EPredictNone (25 # 100) (45 # 100) []) t.
Proof.
  pose proof (image_run_from_the_widgets
      (W := demo_world wget_nothing (demo_video [] REndOfStream))
      0 [script]
      (demo_ui Image Yes None (Some [Byte.x3c; Byte.x68; Byte.x3e]) true false)
      demo_disk
      [Byte.x3c; Byte.x68; Byte.x3e]
      (mkInference (Some Image) (Some Yes) (25 # 100) (45 # 100) (VStr "")
         [] (Some 0%nat) None None (Some [Byte.x3c; Byte.x68; Byte.x3e]))
      demo_disk
      [EWidget "Model"; EPrint (MsgExists "YOLO11m_baseline");
       ELoadModel "models/YOLO11m_baseline.pt";
       ESuccess "Model loaded successfully!"]
      0%nat eq_refl eq_refl eq_refl ltac:(vm_compute; reflexivity) eq_refl)
    as H.
  cbn [imdecode demo_world demo_imdecode] in H.
  destruct H as (e & t & Hrun & He & Hem & Hcalls & Hin).
  exists e, t. split; [exact Hrun|]. split; [|auto].
  destruct He as [He|He]; [exact He|discriminate He].
Defined.

(** A video of two frames, the Stop button not set: two reads, two
    calls, two pairs. *)
Lemma every_read_frame_is_shown_witness :
  exists t,
    trace_of (demo_main wget_nothing (demo_video [7; 8]%nat REndOfStream) 3
                [script] (demo_ui Video Yes (Some [Byte.x00]) None true false)
                demo_disk) = Some t /\
    count is_model_call t = count is_good_read t /\
    length (emissions t) = count is_good_read t.
Proof.
  eexists. split; [vm_compute; reflexivity|].
  refine (every_read_frame_is_shown
      (W := demo_world wget_nothing (demo_video [7; 8]%nat REndOfStream))
      3 [script] (demo_ui Video Yes (Some [Byte.x00]) None true false)
      demo_disk _ _ _); [discriminate|vm_compute; reflexivity].
Defined.
